(** * CyberDropDownloader: the scrape router and the start of a run

    A shallow embedding of [cyberdrop_dl/scraper/scraper_helper.py]
    (class [ScrapeMapper]) and of [download_all] in [cyberdrop_dl/main.py].

    The router talks to many collaborators whose code lives elsewhere
    (the crawlers, [Session], [log], [CascadeItem], the myjdapi client,
    the file system).  They are modelled by what the router does to them:
    every call becomes an [event] of a trace, and what a call answers
    (a constructor that raises, a fetch result, a failed hand-off) is read
    from a record of replies that is an argument of the dispatch.  The
    fields of the [ScrapeMapper] object are threaded as explicit state.

    Coroutines are run to completion one after the other; the only
    nesting is that of a forum crawler calling back into [map_url] while
    its [fetch] runs.  [log] and the append to the unsupported-links file
    are taken to return. *)

From Stdlib Require Import String Ascii List Bool ZArith Lia.
Import ListNotations.
Local Open Scope string_scope.
Local Open Scope list_scope.

(** ** Python values the code inspects *)

(** [sub in s] on two [str]. *)
Fixpoint str_in (sub s : string) : bool :=
  if String.prefix sub s then true
  else match s with
       | EmptyString => false
       | String _ s' => str_in sub s'
       end.

(** [s.lower()], for a [str] of ASCII characters (a host name). *)
Definition lower_ascii (c : ascii) : ascii :=
  let n := nat_of_ascii c in
  if andb (Nat.leb 65 n) (Nat.leb n 90) then ascii_of_nat (n + 32) else c.

Fixpoint lower (s : string) : string :=
  match s with
  | EmptyString => EmptyString
  | String c s' => String (lower_ascii c) (lower s')
  end.

(** Truth value of an optional [str]: [None] and [''] are falsy. *)
Definition truthy (s : option string) : bool :=
  match s with
  | Some (String _ _) => true
  | _ => false
  end.

(** [x in l] for a list of [str]. *)
Definition list_in (x : string) (l : list string) : bool :=
  existsb (String.eqb x) l.

(** A [yarl.URL], by the three observations the code makes of it:
    [str(url)], [url.host] and [bool(url)]. *)
Record URL : Type := mkURL {
  str : string;
  host : option string;
  url_bool : bool
}.

(** * scraper_helper.py *)

Module handler.

(** The eighteen handler methods of [ScrapeMapper]; each owns the crawler
    slot of the same name. *)
Inductive t : Type :=
| Anonfiles | Bunkr | Cyberdrop | coomer | cyberfile | Erome | GoFile
| Kemono | gfycat | Pixeldrain | Postimg | redgifs | Saint | ShareX
| SocialMediaGirls | SimpCity | XBunker | XBunkr.

Definition eqb (a b : t) : bool :=
  match a, b with
  | Anonfiles, Anonfiles | Bunkr, Bunkr | Cyberdrop, Cyberdrop
  | coomer, coomer | cyberfile, cyberfile | Erome, Erome
  | GoFile, GoFile | Kemono, Kemono | gfycat, gfycat
  | Pixeldrain, Pixeldrain | Postimg, Postimg | redgifs, redgifs
  | Saint, Saint | ShareX, ShareX | SocialMediaGirls, SocialMediaGirls
  | SimpCity, SimpCity | XBunker, XBunker | XBunkr, XBunkr => true
  | _, _ => false
  end.

End handler.

(** Objects are known by identity only. *)
Definition Crawler := nat.
Definition DomainItem := nat.
Definition CascadeItem := nat.
Definition Agent := nat.

Record AuthData : Type := { username : option string; password : option string }.
Record SkipData : Type := { sites : list string }.
Record Client : Type := { ratelimit : Z }.

(** The fields of a [ScrapeMapper] that its methods read or assign.
    ([include_id], [separate_posts], [output_last] and the forum
    credentials are only handed to crawler constructors; [Cascade] and
    the limiters are objects reached through the events below.) *)
Record ScrapeMapper : Type := mkScrapeMapper {
  jdownloader_enable : bool;
  jdownloader_device : option string;
  jdownloader_auth : AuthData;
  client : Client;
  skip_data : SkipData;
  anonfiles_crawler : option Crawler;
  bunkr_crawler : option Crawler;
  cyberdrop_crawler : option Crawler;
  coomer_crawler : option Crawler;
  cyberfile_crawler : option Crawler;
  erome_crawler : option Crawler;
  gfycat_crawler : option Crawler;
  gofile_crawler : option Crawler;
  kemono_crawler : option Crawler;
  pixeldrain_crawler : option Crawler;
  postimg_crawler : option Crawler;
  redgifs_crawler : option Crawler;
  saint_crawler : option Crawler;
  sharex_crawler : option Crawler;
  socialmediagirls_crawler : option Crawler;
  simpcity_crawler : option Crawler;
  xbunker_crawler : option Crawler;
  xbunkr_crawler : option Crawler;
  jdownloader_agent : option Agent
}.

(** [ScrapeMapper.__init__]: every slot and the agent start as [None]. *)
Definition init (enable : bool) (device : option string) (auth : AuthData)
    (cl : Client) (skip : SkipData) : ScrapeMapper :=
  mkScrapeMapper enable device auth cl skip
    None None None None None None None None None
    None None None None None None None None None
    None.

(** [self.<h>_crawler] *)
Definition crawler_of (h : handler.t) (self : ScrapeMapper) : option Crawler :=
  match h with
  | handler.Anonfiles => anonfiles_crawler self
  | handler.Bunkr => bunkr_crawler self
  | handler.Cyberdrop => cyberdrop_crawler self
  | handler.coomer => coomer_crawler self
  | handler.cyberfile => cyberfile_crawler self
  | handler.Erome => erome_crawler self
  | handler.GoFile => gofile_crawler self
  | handler.Kemono => kemono_crawler self
  | handler.gfycat => gfycat_crawler self
  | handler.Pixeldrain => pixeldrain_crawler self
  | handler.Postimg => postimg_crawler self
  | handler.redgifs => redgifs_crawler self
  | handler.Saint => saint_crawler self
  | handler.ShareX => sharex_crawler self
  | handler.SocialMediaGirls => socialmediagirls_crawler self
  | handler.SimpCity => simpcity_crawler self
  | handler.XBunker => xbunker_crawler self
  | handler.XBunkr => xbunkr_crawler self
  end.

(** [self.<h>_crawler = c] *)
Definition set_crawler (h : handler.t) (c : Crawler) (self : ScrapeMapper)
  : ScrapeMapper :=
  let upd (h' : handler.t) (old : option Crawler) :=
    if handler.eqb h h' then Some c else old in
  {| jdownloader_enable := jdownloader_enable self;
     jdownloader_device := jdownloader_device self;
     jdownloader_auth := jdownloader_auth self;
     client := client self;
     skip_data := skip_data self;
     anonfiles_crawler := upd handler.Anonfiles (anonfiles_crawler self);
     bunkr_crawler := upd handler.Bunkr (bunkr_crawler self);
     cyberdrop_crawler := upd handler.Cyberdrop (cyberdrop_crawler self);
     coomer_crawler := upd handler.coomer (coomer_crawler self);
     cyberfile_crawler := upd handler.cyberfile (cyberfile_crawler self);
     erome_crawler := upd handler.Erome (erome_crawler self);
     gfycat_crawler := upd handler.gfycat (gfycat_crawler self);
     gofile_crawler := upd handler.GoFile (gofile_crawler self);
     kemono_crawler := upd handler.Kemono (kemono_crawler self);
     pixeldrain_crawler := upd handler.Pixeldrain (pixeldrain_crawler self);
     postimg_crawler := upd handler.Postimg (postimg_crawler self);
     redgifs_crawler := upd handler.redgifs (redgifs_crawler self);
     saint_crawler := upd handler.Saint (saint_crawler self);
     sharex_crawler := upd handler.ShareX (sharex_crawler self);
     socialmediagirls_crawler :=
       upd handler.SocialMediaGirls (socialmediagirls_crawler self);
     simpcity_crawler := upd handler.SimpCity (simpcity_crawler self);
     xbunker_crawler := upd handler.XBunker (xbunker_crawler self);
     xbunkr_crawler := upd handler.XBunkr (xbunkr_crawler self);
     jdownloader_agent := jdownloader_agent self |}.

(** [self.jdownloader_agent = a] *)
Definition set_jdownloader_agent (a : Agent) (self : ScrapeMapper)
  : ScrapeMapper :=
  mkScrapeMapper (jdownloader_enable self) (jdownloader_device self)
    (jdownloader_auth self) (client self) (skip_data self)
    (anonfiles_crawler self) (bunkr_crawler self) (cyberdrop_crawler self)
    (coomer_crawler self) (cyberfile_crawler self) (erome_crawler self)
    (gfycat_crawler self) (gofile_crawler self) (kemono_crawler self)
    (pixeldrain_crawler self) (postimg_crawler self) (redgifs_crawler self)
    (saint_crawler self) (sharex_crawler self)
    (socialmediagirls_crawler self) (simpcity_crawler self)
    (xbunker_crawler self) (xbunkr_crawler self)
    (Some a).

(** [self.jdownloader_enable = b] *)
Definition set_jdownloader_enable (b : bool) (self : ScrapeMapper)
  : ScrapeMapper :=
  mkScrapeMapper b (jdownloader_device self)
    (jdownloader_auth self) (client self) (skip_data self)
    (anonfiles_crawler self) (bunkr_crawler self) (cyberdrop_crawler self)
    (coomer_crawler self) (cyberfile_crawler self) (erome_crawler self)
    (gfycat_crawler self) (gofile_crawler self) (kemono_crawler self)
    (pixeldrain_crawler self) (postimg_crawler self) (redgifs_crawler self)
    (saint_crawler self) (sharex_crawler self)
    (socialmediagirls_crawler self) (simpcity_crawler self)
    (xbunker_crawler self) (xbunkr_crawler self)
    (jdownloader_agent self).

(** ** What the router does to its collaborators *)

Inductive limiter : Type :=
| jpgchurch_limiter | bunkr_limiter | forum_limiter | semaphore.

Inductive event : Type :=
| call (h : handler.t) (url : URL) (title : option string)
    (* [await value(url=url_to_map, title=title)] *)
| new_Session                      (* [Session(self.client)] *)
| construct (h : handler.t)        (* the crawler class of [h] is called *)
| acquire (l : limiter)            (* [async with l:] is entered *)
| release (l : limiter)            (* ... and left *)
| fetch (h : handler.t) (c : Crawler) (url : URL)
| append_title (d : DomainItem) (title : string)
| add_albums (d : DomainItem)      (* [self.Cascade.add_albums(d)] *)
| add_to_album (domain title : string) (content_url url : URL)
| extend (c : CascadeItem)         (* [self.Cascade.extend(c)] *)
| exit_handler                     (* [session.exit_handler()] *)
| log (msg : string)
| connect (user pass : string)     (* [jd.connect(user, pass)] *)
| get_device (device : string)
| add_links (a : Agent) (autostart : bool) (links : string)
| write (file data : string).      (* append to a file opened with 'a' *)

Inductive exn : Type :=
| Exception (msg : string)         (* raised by the router itself *)
| AttributeError                   (* an attribute of [None] *)
| TypeError                        (* [key in None] *)
| raised_by (e : event).           (* raised inside a collaborator *)

Inductive result (A : Type) : Type :=
| Ok (a : A)
| Raised (e : exn).
Arguments Ok {A} a.
Arguments Raised {A} e.

(** What the collaborators answer during one dispatch.  A reply of
    [None] is a call that raises.  [reentrant] lists, in order, the links
    a forum crawler hands back to [map_url] while its [fetch] runs, each
    with the replies of that inner dispatch. *)
#[local] Unset Elimination Schemes.
Inductive Replies : Type := mkReplies {
  constructed : option Crawler;
  fetched_domain : option DomainItem;
  fetched_url : option (option URL);
  fetched_cascade : option CascadeItem;
  reentrant : list (option URL * option string * Replies);
  connected : bool;
  device_found : option Agent;
  links_added : bool
}.
#[local] Set Elimination Schemes.

(** ** A small monad: state, trace and exceptions *)

Definition M (A : Type) : Type :=
  ScrapeMapper -> result A * ScrapeMapper * list event.

Definition ret {A} (a : A) : M A := fun self => (Ok a, self, []).

Definition bind {A B} (m : M A) (k : A -> M B) : M B := fun self =>
  match m self with
  | (Ok a, self', tr) =>
      let '(r, self'', tr') := k a self' in (r, self'', tr ++ tr')
  | (Raised e, self', tr) => (Raised e, self', tr)
  end.

Declare Scope py_scope.
Delimit Scope py_scope with py.
Notation "x <- m ;; k" := (bind m (fun x => k))
  (at level 61, m at next level, right associativity) : py_scope.
Notation "m ;; k" := (bind m (fun _ => k))
  (at level 61, right associativity) : py_scope.
Local Open Scope py_scope.

Definition emit (e : event) : M unit := fun self => (Ok tt, self, [e]).
Definition raise {A} (e : exn) : M A := fun self => (Raised e, self, []).
Definition get : M ScrapeMapper := fun self => (Ok self, self, []).
Definition put (s : ScrapeMapper) : M unit := fun _ => (Ok tt, s, []).

(** A call to a collaborator: it is made (the event), then it returns
    the reply or raises. *)
Definition external {A} (e : event) (reply : option A) : M A :=
  emit e ;;
  match reply with
  | Some a => ret a
  | None => raise (raised_by e)
  end.

(** [try: body  except: handler] (a bare [except] catches everything). *)
Definition try_except {A} (body handler : M A) : M A := fun self =>
  match body self with
  | (Ok a, self', tr) => (Ok a, self', tr)
  | (Raised _, self', tr) =>
      let '(r, self'', tr') := handler self' in (r, self'', tr ++ tr')
  end.

(** [async with l: body]: the limiter is released on every exit. *)
Definition async_with {A} (l : limiter) (body : M A) : M A := fun self =>
  let '(r, self', tr) := body self in
  (r, self', acquire l :: tr ++ [release l]).

(** ** The handlers *)

Section Handlers.

(** The replies of the dispatch under way, and the effect of the inner
    dispatches a forum crawler makes while its [fetch] runs. *)
Variable w : Replies.
Variable during_fetch : M unit.

(** [if not self.<h>_crawler: self.<h>_crawler = <Class>(...)].  A crawler
    object is truthy, so the test is "the slot is [None]". *)
Definition construct_if_missing (h : handler.t) : M unit :=
  self <- get ;;
  match crawler_of h self with
  | Some _ => ret tt
  | None =>
      c <- external (construct h) (constructed w) ;;
      put (set_crawler h c self)
  end.

(** [await self.<h>_crawler.fetch(session, url)] *)
Definition crawler_fetch {A} (h : handler.t) (url : URL) (reply : option A)
  : M A :=
  self <- get ;;
  match crawler_of h self with
  | None => raise AttributeError
  | Some c => external (fetch h c url) reply
  end.

(** [if title: await domain_obj.append_title(title)] *)
Definition append_title_if (domain_obj : DomainItem) (title : option string)
  : M unit :=
  match title with
  | Some t => if truthy title then emit (append_title domain_obj t) else ret tt
  | None => ret tt
  end.

Definition Anonfiles (url : URL) (title : option string) : M unit :=
  emit new_Session ;;
  construct_if_missing handler.Anonfiles ;;
  domain_obj <- crawler_fetch handler.Anonfiles url (fetched_domain w) ;;
  append_title_if domain_obj title ;;
  emit (add_albums domain_obj) ;;
  emit exit_handler.

Definition Bunkr (url : URL) (title : option string) : M unit :=
  emit new_Session ;;
  construct_if_missing handler.Bunkr ;;
  domain_obj <- async_with bunkr_limiter
                  (crawler_fetch handler.Bunkr url (fetched_domain w)) ;;
  append_title_if domain_obj title ;;
  emit (add_albums domain_obj) ;;
  emit exit_handler.

Definition Cyberdrop (url : URL) (title : option string) : M unit :=
  emit new_Session ;;
  construct_if_missing handler.Cyberdrop ;;
  domain_obj <- crawler_fetch handler.Cyberdrop url (fetched_domain w) ;;
  append_title_if domain_obj title ;;
  emit (add_albums domain_obj) ;;
  emit exit_handler.

Definition coomer (url : URL) (title : option string) : M unit :=
  emit new_Session ;;
  construct_if_missing handler.coomer ;;
  domain_obj <- crawler_fetch handler.coomer url (fetched_domain w) ;;
  append_title_if domain_obj title ;;
  emit (add_albums domain_obj) ;;
  emit exit_handler.

Definition cyberfile (url : URL) (title : option string) : M unit :=
  emit new_Session ;;
  construct_if_missing handler.cyberfile ;;
  domain_obj <- async_with semaphore
                  (crawler_fetch handler.cyberfile url (fetched_domain w)) ;;
  append_title_if domain_obj title ;;
  emit (add_albums domain_obj) ;;
  emit exit_handler.

Definition Erome (url : URL) (title : option string) : M unit :=
  emit new_Session ;;
  construct_if_missing handler.Erome ;;
  domain_obj <- crawler_fetch handler.Erome url (fetched_domain w) ;;
  append_title_if domain_obj title ;;
  emit (add_albums domain_obj) ;;
  emit exit_handler.

(** The guarded construction in [GoFile], the one handler that guards its
    constructor: [true] when a crawler is at hand; when the constructor
    raises, the failure is logged, the slot stays [None] and the answer is
    [false] (the handler then returns). *)
Definition gofile_crawler_started : M bool :=
  self <- get ;;
  match gofile_crawler self with
  | Some _ => ret true
  | None =>
      try_except
        (c <- external (construct handler.GoFile) (constructed w) ;;
         put (set_crawler handler.GoFile c self) ;;
         ret true)
        (emit (log "Couldn't start the GoFile crawler") ;;
         ret false)
  end.

Definition GoFile (url : URL) (title : option string) : M unit :=
  emit new_Session ;;
  started <- gofile_crawler_started ;;
  if started : bool then
    domain_obj <- crawler_fetch handler.GoFile url (fetched_domain w) ;;
    append_title_if domain_obj title ;;
    emit (add_albums domain_obj) ;;
    emit exit_handler
  else ret tt.

Definition Kemono (url : URL) (title : option string) : M unit :=
  emit new_Session ;;
  construct_if_missing handler.Kemono ;;
  domain_obj <- crawler_fetch handler.Kemono url (fetched_domain w) ;;
  append_title_if domain_obj title ;;
  emit (add_albums domain_obj) ;;
  emit exit_handler.

(** [if content_url: add_to_album(domain, f"{title}/gifs" or "gifs", ...)] *)
Definition add_gif (domain : string) (content_url : option URL) (url : URL)
    (title : option string) : M unit :=
  match content_url with
  | Some cu =>
      if url_bool cu then
        match title with
        | Some t =>
            if truthy title
            then emit (add_to_album domain (t ++ "/gifs") cu url)
            else emit (add_to_album domain "gifs" cu url)
        | None => emit (add_to_album domain "gifs" cu url)
        end
      else ret tt
  | None => ret tt
  end.

Definition gfycat (url : URL) (title : option string) : M unit :=
  emit new_Session ;;
  construct_if_missing handler.gfycat ;;
  content_url <- crawler_fetch handler.gfycat url (fetched_url w) ;;
  add_gif "gfycat.com" content_url url title ;;
  emit exit_handler.

Definition Pixeldrain (url : URL) (title : option string) : M unit :=
  emit new_Session ;;
  construct_if_missing handler.Pixeldrain ;;
  domain_obj <- crawler_fetch handler.Pixeldrain url (fetched_domain w) ;;
  append_title_if domain_obj title ;;
  emit (add_albums domain_obj) ;;
  emit exit_handler.

Definition Postimg (url : URL) (title : option string) : M unit :=
  emit new_Session ;;
  construct_if_missing handler.Postimg ;;
  domain_obj <- crawler_fetch handler.Postimg url (fetched_domain w) ;;
  append_title_if domain_obj title ;;
  emit (add_albums domain_obj) ;;
  emit exit_handler.

Definition redgifs (url : URL) (title : option string) : M unit :=
  emit new_Session ;;
  construct_if_missing handler.redgifs ;;
  content_url <- crawler_fetch handler.redgifs url (fetched_url w) ;;
  add_gif "redgifs.com" content_url url title ;;
  emit exit_handler.

Definition Saint (url : URL) (title : option string) : M unit :=
  emit new_Session ;;
  construct_if_missing handler.Saint ;;
  domain_obj <- crawler_fetch handler.Saint url (fetched_domain w) ;;
  append_title_if domain_obj title ;;
  emit (add_albums domain_obj) ;;
  emit exit_handler.

Definition ShareX (url : URL) (title : option string) : M unit :=
  emit new_Session ;;
  construct_if_missing handler.ShareX ;;
  self <- get ;;
  domain_obj <-
    match host url with
    | None => raise TypeError
    | Some h =>
        if andb (str_in "jpg.church" h) (19 <? ratelimit (client self))%Z
        then async_with jpgchurch_limiter
               (crawler_fetch handler.ShareX url (fetched_domain w))
        else crawler_fetch handler.ShareX url (fetched_domain w)
    end ;;
  append_title_if domain_obj title ;;
  emit (add_albums domain_obj) ;;
  emit exit_handler.

(** A forum crawler was given [scraping_mapper=self]: while its [fetch]
    runs it may dispatch the links it finds, before it returns its own
    sub-tree. *)
Definition forum_fetch (h : handler.t) (url : URL) : M CascadeItem :=
  self <- get ;;
  match crawler_of h self with
  | None => raise AttributeError
  | Some c =>
      emit (fetch h c url) ;;
      during_fetch ;;
      match fetched_cascade w with
      | Some sub => ret sub
      | None => raise (raised_by (fetch h c url))
      end
  end.

Definition SocialMediaGirls (url : URL) (title : option string) : M unit :=
  emit new_Session ;;
  construct_if_missing handler.SocialMediaGirls ;;
  async_with forum_limiter
    (sub <- forum_fetch handler.SocialMediaGirls url ;; emit (extend sub)) ;;
  emit exit_handler.

Definition SimpCity (url : URL) (title : option string) : M unit :=
  emit new_Session ;;
  construct_if_missing handler.SimpCity ;;
  async_with forum_limiter
    (sub <- forum_fetch handler.SimpCity url ;; emit (extend sub)) ;;
  emit exit_handler.

Definition XBunker (url : URL) (title : option string) : M unit :=
  emit new_Session ;;
  construct_if_missing handler.XBunker ;;
  async_with forum_limiter
    (sub <- forum_fetch handler.XBunker url ;; emit (extend sub)) ;;
  emit exit_handler.

Definition XBunkr (url : URL) (title : option string) : M unit :=
  emit new_Session ;;
  construct_if_missing handler.XBunkr ;;
  domain_obj <- crawler_fetch handler.XBunkr url (fetched_domain w) ;;
  append_title_if domain_obj title ;;
  emit (add_albums domain_obj) ;;
  emit exit_handler.

(** The bound method a table entry stands for. *)
Definition method (h : handler.t) : URL -> option string -> M unit :=
  match h with
  | handler.Anonfiles => Anonfiles
  | handler.Bunkr => Bunkr
  | handler.Cyberdrop => Cyberdrop
  | handler.coomer => coomer
  | handler.cyberfile => cyberfile
  | handler.Erome => Erome
  | handler.GoFile => GoFile
  | handler.Kemono => Kemono
  | handler.gfycat => gfycat
  | handler.Pixeldrain => Pixeldrain
  | handler.Postimg => Postimg
  | handler.redgifs => redgifs
  | handler.Saint => Saint
  | handler.ShareX => ShareX
  | handler.SocialMediaGirls => SocialMediaGirls
  | handler.SimpCity => SimpCity
  | handler.XBunker => XBunker
  | handler.XBunkr => XBunkr
  end.

(** [await value(url=url_to_map, title=title)] *)
Definition invoke (value : handler.t) (url : URL) (title : option string)
  : M unit :=
  emit (call value url title) ;;
  method value url title.

End Handlers.

(** ** The key table, [jdownloader_setup] and [map_url] *)

(** [self.mapping], in the order of the dict literal (a dict is iterated
    in insertion order). *)
Definition mapping : list (string * handler.t) :=
  [ ("anonfiles.com", handler.Anonfiles); ("bayfiles", handler.Anonfiles);
    ("xbunkr", handler.XBunkr); ("bunkr", handler.Bunkr);
    ("coomer.party", handler.coomer); ("cyberdrop", handler.Cyberdrop);
    ("cyberfile.is", handler.cyberfile); ("erome.com", handler.Erome);
    ("gfycat.com", handler.gfycat); ("gofile.io", handler.GoFile);
    ("img.kiwi", handler.ShareX); ("jpg.church", handler.ShareX);
    ("jpg.homes", handler.ShareX); ("kemono.party", handler.Kemono);
    ("pixeldrain.com", handler.Pixeldrain); ("pixl.is", handler.ShareX);
    ("postimg", handler.Postimg); ("putme.ga", handler.ShareX);
    ("putmega.com", handler.ShareX); ("redgifs.com", handler.redgifs);
    ("saint.to", handler.Saint);
    ("socialmediagirls", handler.SocialMediaGirls);
    ("simpcity", handler.SimpCity); ("xbunker", handler.XBunker) ].

Definition Unsupported_Urls_txt : string := "./Unsupported_Urls.txt".

(** ["\n"] *)
Definition newline : string := String (ascii_of_nat 10) EmptyString.

(** The value of an optional [str] once it is known to be truthy. *)
Definition the (s : option string) : string :=
  match s with
  | Some s => s
  | None => ""
  end.

Section Dispatch.

Variable w : Replies.
Variable during_fetch : M unit.

Definition jdownloader_setup : M unit :=
  try_except
    (self <- get ;;
     (if negb (truthy (username (jdownloader_auth self)))
         || negb (truthy (password (jdownloader_auth self)))
         || negb (truthy (jdownloader_device self))
      then raise (Exception "jdownloader credentials were not provided.")
      else ret tt) ;;
     external (connect (the (username (jdownloader_auth self)))
                       (the (password (jdownloader_auth self))))
              (if connected w then Some tt else None) ;;
     agent <- external (get_device (the (jdownloader_device self)))
                       (device_found w) ;;
     put (set_jdownloader_agent agent self))
    (emit (log "Failed jdownloader setup") ;;
     self <- get ;;
     put (set_jdownloader_enable false self)).

(** The [for key, value in self.mapping.items()] loop over the items not
    yet visited; [after_loop] is the code that follows the loop, reached
    only when no key matched. *)
Fixpoint scan (items : list (string * handler.t)) (url_to_map : URL)
    (host : string) (title : option string) (after_loop : M unit) : M unit :=
  match items with
  | [] => after_loop
  | (key, value) :: rest =>
      if str_in key host then
        self <- get ;;
        if negb (list_in key (sites (skip_data self))) then
          invoke w during_fetch value url_to_map title
        else
          emit (log ("Skipping scrape of " ++ str url_to_map))
      else scan rest url_to_map host title after_loop
  end.

(** The code of [map_url] after the loop. *)
Definition no_key_matched (url_to_map : URL) (host : string) : M unit :=
  self <- get ;;
  if jdownloader_enable self then
    (match jdownloader_agent self with
     | None => jdownloader_setup
     | Some _ => ret tt
     end) ;;
    try_except
      ((if str_in "facebook" (lower host) || str_in "instagram" (lower host)
        then raise (Exception "Blacklisted META")
        else ret tt) ;;
       emit (log ("Sending " ++ str url_to_map ++ " to JDownloader")) ;;
       self <- get ;;
       match jdownloader_agent self with
       | None => raise AttributeError
       | Some agent =>
           external (add_links agent false (str url_to_map))
                    (if links_added w then Some tt else None)
       end)
      (emit (log ("Failed to send " ++ str url_to_map ++ " to JDownloader")))
  else
    emit (log (str url_to_map ++ " is not supported currently.")) ;;
    emit (write Unsupported_Urls_txt (str url_to_map ++ newline)).

(** One dispatch, given what the inner dispatches of a forum crawler do. *)
Definition map_url_body (url_to_map : option URL) (title : option string)
  : M unit :=
  match url_to_map with
  | None => ret tt
  | Some url =>
      if negb (url_bool url) then ret tt
      else if negb (truthy (host url)) then
        emit (log (str url ++ " is not supported currently."))
      else
        scan mapping url (the (host url)) title
             (no_key_matched url (the (host url)))
  end.

End Dispatch.

(** Modelled from the spec: the forum crawlers (the [crawlers] package is
    not at hand) "may themselves recursively call back into dispatch for
    sub-links discovered during their own fetch".  The inner dispatches
    are made one after the other.  What the crawler does with an exception
    of an inner dispatch is its own affair: whether its [fetch] raises is
    a reply of the outer dispatch. *)
Definition dispatch_all
    (dispatch : Replies -> option URL -> option string -> M unit)
  : list (option URL * option string * Replies) -> M unit :=
  fix go l :=
    match l with
    | [] => ret tt
    | (url, title, w) :: l' =>
        fun self =>
          let '(_, self', tr) := dispatch w url title self in
          let '(r, self'', tr') := go l' self' in
          (r, self'', tr ++ tr')
    end.

(** [ScrapeMapper.map_url] *)
Fixpoint map_url (w : Replies) (url_to_map : option URL)
    (title : option string) {struct w} : M unit :=
  map_url_body w (dispatch_all map_url (reentrant w)) url_to_map title.

(** A run of the router: dispatches made one after the other; one that
    raises does not keep the later ones from being made. *)
Definition run (links : list (option URL * option string * Replies))
  : M unit :=
  dispatch_all map_url links.

(** * main.py *)

Module main.

(** The values found in the namespace of parsed arguments. *)
Inductive value : Type :=
| VNone
| VBool (b : bool)
| VInt (z : Z)
| VHalf                            (* the float [0.5], default of --throttle *)
| VStr (s : string)
| VPath (p : string)
| VList (l : list string).

Definition opt_str (o : option string) : value :=
  match o with
  | Some s => VStr s
  | None => VNone
  end.

(** The namespace [parse_args] returns: one attribute per [add_argument],
    with the type its [type=], [action=] and [default=] give it. *)
Record Namespace : Type := mkNamespace {
  input_file : string;
  output_folder : string;
  log_file : string;
  db_file : string;
  threads : Z;
  attempts : Z;
  connection_timeout : Z;
  disable_attempt_limit : bool;
  include_id : bool;
  exclude_videos : bool;
  exclude_images : bool;
  exclude_audio : bool;
  exclude_other : bool;
  ignore_history : bool;
  output_last_forum_post : bool;
  proxy : option string;
  separate_posts : bool;
  xbunker_username : option string;
  xbunker_password : option string;
  socialmediagirls_username : option string;
  socialmediagirls_password : option string;
  simpcity_username : option string;
  simpcity_password : option string;
  jdownloader_enable : bool;
  jdownloader_username : option string;
  jdownloader_password : option string;
  jdownloader_device : option string;
  skip_hosts : list string;
  ratelimit : Z;
  throttle : value;
  links : list string
}.

(** [vars(args)]: the attribute dict, in the order the parser set the
    attributes (the order of the [add_argument] calls). *)
Definition vars (args : Namespace) : list (string * value) :=
  [ ("input_file", VPath (input_file args));
    ("output_folder", VPath (output_folder args));
    ("log_file", VStr (log_file args));
    ("db_file", VStr (db_file args));
    ("threads", VInt (threads args));
    ("attempts", VInt (attempts args));
    ("connection_timeout", VInt (connection_timeout args));
    ("disable_attempt_limit", VBool (disable_attempt_limit args));
    ("include_id", VBool (include_id args));
    ("exclude_videos", VBool (exclude_videos args));
    ("exclude_images", VBool (exclude_images args));
    ("exclude_audio", VBool (exclude_audio args));
    ("exclude_other", VBool (exclude_other args));
    ("ignore_history", VBool (ignore_history args));
    ("output_last_forum_post", VBool (output_last_forum_post args));
    ("proxy", opt_str (proxy args));
    ("separate_posts", VBool (separate_posts args));
    ("xbunker_username", opt_str (xbunker_username args));
    ("xbunker_password", opt_str (xbunker_password args));
    ("socialmediagirls_username", opt_str (socialmediagirls_username args));
    ("socialmediagirls_password", opt_str (socialmediagirls_password args));
    ("simpcity_username", opt_str (simpcity_username args));
    ("simpcity_password", opt_str (simpcity_password args));
    ("jdownloader_enable", VBool (jdownloader_enable args));
    ("jdownloader_username", opt_str (jdownloader_username args));
    ("jdownloader_password", opt_str (jdownloader_password args));
    ("jdownloader_device", opt_str (jdownloader_device args));
    ("skip_hosts", VList (skip_hosts args));
    ("ratelimit", VInt (ratelimit args));
    ("throttle", throttle args);
    ("links", VList (links args)) ].

(** [d[k] = v] on a dict kept as its list of items: an existing key keeps
    its place, a new key goes last. *)
Fixpoint setitem (d : list (string * value)) (k : string) (v : value)
  : list (string * value) :=
  match d with
  | [] => [(k, v)]
  | (k', v') :: d' =>
      if String.eqb k' k then (k', v) :: d' else (k', v') :: setitem d' k v
  end.

(** [d.get(k)] *)
Fixpoint getitem (d : list (string * value)) (k : string) : option value :=
  match d with
  | [] => None
  | (k', v') :: d' => if String.eqb k' k then Some v' else getitem d' k
  end.

Definition REDACTED : value := VStr "!REDACTED!".

(** The dict [print_args] that [download_all] builds: a fresh namespace
    with the attributes of [args], four of them overwritten. *)
Definition print_args (args : Namespace) : list (string * value) :=
  let d := vars args in
  let d := setitem d "xbunker_password" REDACTED in
  let d := setitem d "socialmediagirls_password" REDACTED in
  let d := setitem d "simpcity_password" REDACTED in
  setitem d "jdownloader_password" REDACTED.

Inductive Fore : Type := WHITE | RED.

Definition Downloader := nat.

Inductive event : Type :=
| clear
| log (msg : string) (style : option Fore)
| logging_debug (msg : string)
| logging_error (msg : string)
| logger_debug (msg : string)
| touch (path : string)
| unlink (path : string)
| new_Client (ratelimit : Z) (throttle : value)
| new_SQLHelper (ignore_history : bool) (db_file : string)
| sql_initialize
| read_file (path : string)
| scrape (links : list URL) (include_id jdownloader_enable : bool)
    (jdownloader_device : option string)
    (xbunker_auth socialmediagirls_auth simpcity_auth jdownloader_auth
       : AuthData)
    (separate_posts : bool) (skip_data : SkipData)
    (output_last : bool * option string)
| get_downloaders (folder : string) (attempts : Z)
    (disable_attempt_limit : bool) (max_workers : Z)
    (excludes : bool * bool * bool * bool) (proxy : option string)
| download_content (d : Downloader) (conn_timeout : Z)
| rglob_part (folder : string)
| purge_dir (folder : string).

(** How a coroutine ends: it returns, or [exit(code)] raises SystemExit. *)
Inductive outcome : Type :=
| returned
| exit (code : Z).

(** What the collaborators answer during one run. *)
Record Replies : Type := mkReplies {
  is_file : bool;                  (* [input_file.is_file()] *)
  cpu_count : Z;
  regex_links : list URL;          (* the links found in the input file *)
  last_post_exists : bool;         (* [output_url_file.exists()] *)
  is_empty : bool;                 (* [content_object.is_empty()] *)
  downloaders : list Downloader;
  partial_downloads : list string  (* the [*.part] files left *)
}.

Section Run.

(** Names bound outside the file: the package version, [repr] on the
    values of the namespace, [yarl.URL] on a string and the path
    [p.parent / name]. *)
Variable VERSION : string.
Variable repr : value -> string.
Variable URL_of : string -> URL.
Variable sibling : string -> string -> string.

(** [", ".join(items)] *)
Fixpoint join (items : list string) : string :=
  match items with
  | [] => ""
  | [x] => x
  | x :: rest => (x ++ ", " ++ join rest)%string
  end.

(** [str(d)] for a dict. *)
Definition dict_str (d : list (string * value)) : string :=
  ("{" ++ join (map (fun kv => repr (VStr (fst kv)) ++ ": " ++ repr (snd kv))
                    d)
       ++ "}")%string.

(** The line [logging.debug] receives at the start of a run. *)
Definition debug_line (args : Namespace) : string :=
  ("Starting downloader with args: " ++ dict_str (print_args args))%string.

Definition No_links_found_check : string :=
  ("No links found, check the URL.txt" ++ newline ++
   "If the link works in your web browser, please open an issue ticket with me."
  )%string.

Definition No_links_found_scraping : string :=
  "No links found duing scraping, check passwords or that the urls are accessible".

Definition Finished_downloading : string := "Finished downloading. Enjoy :)".

Definition still_partial : string :=
  "There are still partial downloads in your folders, please re-run the program.".

(** The part of [download_all] that follows the scrape. *)
Definition after_scrape (args : Namespace) (w : Replies) (max_workers : Z)
  : outcome * list event :=
  if is_empty w then
    (exit 0,
     [ logging_error "ValueError No links";
       log No_links_found_scraping (Some RED);
       log "This program does not currently support password protected albums."
           (Some RED) ])
  else
    (returned,
     [ clear;
       get_downloaders (output_folder args) (attempts args)
         (disable_attempt_limit args) max_workers
         (exclude_videos args, exclude_images args, exclude_audio args,
          exclude_other args)
         (proxy args) ]
     ++ map (fun d => download_content d (connection_timeout args))
            (downloaders w)
     ++ [ logger_debug "Finished";
          rglob_part (output_folder args);
          log "Purging empty directories" None;
          purge_dir (output_folder args);
          log Finished_downloading None ]
     ++ (match partial_downloads w with
         | [] => []
         | _ :: _ => [log still_partial None]
         end)).

Definition download_all (args : Namespace) (w : Replies)
  : outcome * list event :=
  let start :=
    [ clear;
      log ("We are running version " ++ VERSION ++ " of Cyberdrop Downloader")
          (Some WHITE);
      logging_debug (debug_line args) ] in
  if negb (is_file w) then
    (exit 1,
     start ++
     [ touch (input_file args);
       log (input_file args ++ " created. Populate it and retry.") None ])
  else
    let max_workers :=
      if (threads args =? 0)%Z then cpu_count w else threads args in
    let links := map URL_of (links args) ++ regex_links w in
    let links := filter url_bool links in
    let output_url_file :=
      if output_last_forum_post args
      then Some (sibling (input_file args) "URLs_last_post.txt")
      else None in
    let before_scrape :=
      [ new_Client (ratelimit args) (throttle args);
        new_SQLHelper (ignore_history args) (db_file args);
        sql_initialize;
        read_file (input_file args) ]
      ++ (match links with
          | [] => [log No_links_found_check (Some RED)]
          | _ :: _ => []
          end)
      ++ (match output_url_file with
          | Some f => if last_post_exists w then [unlink f; touch f] else []
          | None => []
          end)
      ++ [ scrape links (include_id args) (jdownloader_enable args)
             (jdownloader_device args)
             (Build_AuthData (xbunker_username args) (xbunker_password args))
             (Build_AuthData (socialmediagirls_username args)
                             (socialmediagirls_password args))
             (Build_AuthData (simpcity_username args) (simpcity_password args))
             (Build_AuthData (jdownloader_username args)
                             (jdownloader_password args))
             (separate_posts args) (Build_SkipData (skip_hosts args))
             (output_last_forum_post args, output_url_file) ] in
    let '(out, rest) := after_scrape args w max_workers in
    (out, start ++ before_scrape ++ rest).

End Run.

End main.

(** * Reading a trace *)

Definition state_of {A} (x : result A * ScrapeMapper * list event)
  : ScrapeMapper := snd (fst x).

Definition trace_of {A} (x : result A * ScrapeMapper * list event)
  : list event := snd x.

(** The first table entry whose key occurs in the host, if any. *)
Definition first_match (host : string) : option (string * handler.t) :=
  find (fun kv => str_in (fst kv) host) mapping.

(** The handlers invoked, in order. *)
Fixpoint calls (tr : list event) : list handler.t :=
  match tr with
  | [] => []
  | call h _ _ :: tr' => h :: calls tr'
  | _ :: tr' => calls tr'
  end.

(** The links handed to the JDownloader agent. *)
Fixpoint forwarded (tr : list event) : list string :=
  match tr with
  | [] => []
  | add_links _ _ links :: tr' => links :: forwarded tr'
  | _ :: tr' => forwarded tr'
  end.

(** What was appended to [Unsupported_Urls.txt]. *)
Fixpoint appended (tr : list event) : list string :=
  match tr with
  | [] => []
  | write _ data :: tr' => data :: appended tr'
  | _ :: tr' => appended tr'
  end.

(** How many times the crawler class of [h] was called. *)
Fixpoint constructions (h : handler.t) (tr : list event) : nat :=
  match tr with
  | [] => 0
  | construct h' :: tr' =>
      (if handler.eqb h h' then 1 else 0) + constructions h tr'
  | _ :: tr' => constructions h tr'
  end.

(** The crawler objects whose [fetch] was called on behalf of [h]. *)
Fixpoint fetched_with (h : handler.t) (tr : list event) : list Crawler :=
  match tr with
  | [] => []
  | fetch h' c _ :: tr' =>
      if handler.eqb h h' then c :: fetched_with h tr' else fetched_with h tr'
  | _ :: tr' => fetched_with h tr'
  end.

(** A relation between the router before a piece of code, the router
    after it and the trace in between; [m] respects it when it holds of
    every execution of [m]. *)
Definition effect : Type := ScrapeMapper -> ScrapeMapper -> list event -> Prop.

Definition respects {A} (R : effect) (m : M A) : Prop :=
  forall self, R self (state_of (m self)) (trace_of (m self)).

(** A filled slot of [h] stays filled with the same crawler [c], the
    crawler class of [h] is not called, and every fetch on behalf of [h]
    goes to [c]. *)
Definition keeps_crawler (h : handler.t) (c : Crawler) : effect :=
  fun self self' tr =>
    crawler_of h self = Some c ->
    crawler_of h self' = Some c
    /\ constructions h tr = 0
    /\ Forall (eq c) (fetched_with h tr).

(** A disabled sink stays disabled and receives nothing. *)
Definition stays_disabled : effect :=
  fun self self' tr =>
    jdownloader_enable self = false ->
    jdownloader_enable self' = false /\ forwarded tr = [].

(** The events that neither build nor use a crawler, nor reach the sink
    or the unsupported-links file. *)
Definition plain_event (e : event) : bool :=
  match e with
  | call _ _ _ | new_Session | acquire _ | release _ | append_title _ _
  | add_albums _ | add_to_album _ _ _ _ | extend _ | exit_handler
  | log _ => true
  | _ => false
  end.

(** The three forum handlers, whose crawlers hold the router. *)
Definition is_forum (h : handler.t) : bool :=
  match h with
  | handler.SocialMediaGirls | handler.SimpCity | handler.XBunker => true
  | _ => false
  end.

(** [jdownloader_setup] is bound to end in its [except] branch. *)
Definition setup_fails (w : Replies) (self : ScrapeMapper) : bool :=
  negb (truthy (username (jdownloader_auth self)))
  || negb (truthy (password (jdownloader_auth self)))
  || negb (truthy (jdownloader_device self))
  || negb (connected w)
  || match device_found w with Some _ => false | None => true end.

(** A host on the list of hosts that are never forwarded. *)
Definition blacklisted (host : string) : bool :=
  str_in "facebook" (lower host) || str_in "instagram" (lower host).

(** The hand-off of an unmatched link is bound to fail: the host is on
    the blacklist, or no agent is at hand once the setup has been tried,
    or [add_links] raises. *)
Definition hand_off_fails (w : Replies) (self : ScrapeMapper) (host : string)
  : bool :=
  blacklisted host
  || match jdownloader_agent self with
     | Some _ => false
     | None => setup_fails w self
     end
  || negb (links_added w).


(** Events of a run that build a downloader or start a download. *)
Definition starts_download (e : main.event) : bool :=
  match e with
  | main.get_downloaders _ _ _ _ _ _ | main.download_content _ _ => true
  | _ => false
  end.

(** The messages [log] received, in order. *)
Fixpoint logged (tr : list main.event) : list string :=
  match tr with
  | [] => []
  | main.log msg _ :: tr' => msg :: logged tr'
  | _ :: tr' => logged tr'
  end.


(** The links a run hands to [scrape]: those of the command line and
    those of the input file, the falsy ones dropped. *)
Definition links_of (URL_of : string -> URL) (args : main.Namespace)
    (w : main.Replies) : list URL :=
  filter url_bool (map URL_of (main.links args) ++ main.regex_links w).

(** * Sample inputs *)

Module sample.

Definition cyberdrop_url : URL :=
  mkURL "https://cyberdrop.me/a/ABC123" (Some "cyberdrop.me") true.

Definition unknown_url : URL :=
  mkURL "https://unknownhost.example/x" (Some "unknownhost.example") true.

Definition gofile_url : URL :=
  mkURL "https://gofile.io/d/abc" (Some "gofile.io") true.

Definition other_gofile_url : URL :=
  mkURL "https://gofile.io/d/xyz" (Some "gofile.io") true.

Definition facebook_url : URL :=
  mkURL "https://m.facebook.com/some.page" (Some "m.facebook.com") true.

Definition simpcity_url : URL :=
  mkURL "https://simpcity.su/threads/t.1" (Some "simpcity.su") true.

Definition no_auth : AuthData := Build_AuthData None None.
Definition jd_auth : AuthData := Build_AuthData (Some "me") (Some "secret").

(** A router without sink and without skipped hosts. *)
Definition plain : ScrapeMapper :=
  init false None no_auth (Build_Client 50) (Build_SkipData []).

(** A router told to skip cyberdrop. *)
Definition skipping : ScrapeMapper :=
  init false None no_auth (Build_Client 50) (Build_SkipData ["cyberdrop"]).

(** A router with the sink enabled and its credentials given. *)
Definition with_sink : ScrapeMapper :=
  init true (Some "laptop") jd_auth (Build_Client 50) (Build_SkipData []).

(** ... and with the agent already connected. *)
Definition with_agent : ScrapeMapper := set_jdownloader_agent 3 with_sink.

(** A router with the sink enabled but no credentials. *)
Definition sink_without_credentials : ScrapeMapper :=
  init true None no_auth (Build_Client 50) (Build_SkipData []).

(** Every collaborator answers. *)
Definition all_fine : Replies :=
  mkReplies (Some 1) (Some 7) (Some None) (Some 9) [] true (Some 3) true.

(** The crawler constructor raises. *)
Definition no_crawler : Replies :=
  mkReplies None (Some 7) (Some None) (Some 9) [] true (Some 3) true.

(** The hand-off to the agent raises. *)
Definition no_hand_off : Replies :=
  mkReplies (Some 1) (Some 7) (Some None) (Some 9) [] true (Some 3) false.

(** A forum thread whose crawler dispatches two links it found, the
    second to the forum itself. *)
Definition thread : Replies :=
  mkReplies (Some 5) None None (Some 9)
    [ (Some cyberdrop_url, Some "thread", all_fine);
      (Some simpcity_url, None, all_fine) ]
    true None true.

Definition args : main.Namespace :=
  main.mkNamespace "URLs.txt" "Downloads" "downloader.log"
    "download_history.sqlite" 0 10 15 false false false false false false
    false false None false
    (Some "u1") (Some "hunter2") None None None (Some "pw3")
    true (Some "me") (Some "secret") (Some "laptop")
    [] 50 main.VHalf ["https://cyberdrop.me/a/ABC123"].

(** A run whose scrape found nothing. *)
Definition nothing_scraped : main.Replies :=
  main.mkReplies true 8 [unknown_url] false true [4; 5] ["a.part"].

Definition repr (v : main.value) : string :=
  match v with
  | main.VStr s => "'" ++ s ++ "'"
  | _ => "?"
  end.

Definition URL_of (s : string) : URL := mkURL s (Some s) true.

Definition sibling (p name : string) : string := name.

End sample.

(** * More ways to read a trace *)

(** The calls made on the content tree and on the objects to be merged
    into it. *)
Definition tree_event (e : event) : bool :=
  match e with
  | append_title _ _ | add_albums _ | add_to_album _ _ _ _ | extend _ => true
  | _ => false
  end.

Definition tree_calls (tr : list event) : list event := filter tree_event tr.

(** The calls that build or use a crawler. *)
Definition crawler_event (e : event) : bool :=
  match e with
  | construct _ | fetch _ _ _ => true
  | _ => false
  end.



(** How many calls went to the myjdapi connection. *)
Fixpoint connects (tr : list event) : nat :=
  match tr with
  | [] => 0
  | connect _ _ :: tr' | get_device _ :: tr' => S (connects tr')
  | _ :: tr' => connects tr'
  end.

(** The limiters held when the first [fetch] of a trace is called. *)
Fixpoint held_at_fetch (stack : list limiter) (tr : list event)
  : option (list limiter) :=
  match tr with
  | [] => None
  | fetch _ _ _ :: _ => Some stack
  | acquire l :: tr' => held_at_fetch (l :: stack) tr'
  | release _ :: tr' => held_at_fetch (tl stack) tr'
  | _ :: tr' => held_at_fetch stack tr'
  end.

(** The two handlers whose crawler resolves a link to one file. *)
Definition is_gif (h : handler.t) : bool :=
  match h with
  | handler.gfycat | handler.redgifs => true
  | _ => false
  end.

Definition gif_domain (h : handler.t) : string :=
  match h with
  | handler.redgifs => "redgifs.com"
  | _ => "gfycat.com"
  end.

(** A crawler is at hand for [h]: its slot is filled, or the crawler
    class returns one. *)
Definition crawler_at_hand (h : handler.t) (w : Replies) (self : ScrapeMapper)
  : bool :=
  match crawler_of h self, constructed w with
  | None, None => false
  | _, _ => true
  end.

(** What one dispatch to [h] is expected to add to the content tree, read
    off the replies of the fetch. *)
Definition merged (h : handler.t) (w : Replies) (url : URL)
    (title : option string) : list event :=
  if is_forum h then
    match fetched_cascade w with
    | Some sub => [extend sub]
    | None => []
    end
  else if is_gif h then
    match fetched_url w with
    | Some (Some content_url) =>
        if url_bool content_url then
          [ add_to_album (gif_domain h)
              (if truthy title then the title ++ "/gifs" else "gifs")
              content_url url ]
        else []
    | _ => []
    end
  else
    match fetched_domain w with
    | Some domain_obj =>
        (if truthy title then [append_title domain_obj (the title)] else [])
        ++ [add_albums domain_obj]
    | None => []
    end.

(** The limiters a dispatch to [h] is expected to hold around its fetch. *)
Definition limiters_of (h : handler.t) (host : string) (self : ScrapeMapper)
  : list limiter :=
  match h with
  | handler.Bunkr => [bunkr_limiter]
  | handler.cyberfile => [semaphore]
  | handler.SocialMediaGirls | handler.SimpCity | handler.XBunker =>
      [forum_limiter]
  | handler.ShareX =>
      if andb (str_in "jpg.church" host) (19 <? ratelimit (client self))%Z
      then [jpgchurch_limiter] else []
  | _ => []
  end.

(** An agent is at hand once the setup, if needed, has been tried. *)
Definition agent_at_hand (w : Replies) (self : ScrapeMapper) : bool :=
  match jdownloader_agent self with
  | Some _ => true
  | None => negb (setup_fails w self)
  end.

(** The configuration of a router: what [__init__] copies from its
    arguments and the methods only read. *)
Definition config (self : ScrapeMapper)
  : option string * AuthData * Client * SkipData :=
  (jdownloader_device self, jdownloader_auth self, client self,
   skip_data self).

(** Nothing but the outcome of a failed setup disables the sink, nothing
    enables it, and the configuration is never touched. *)
Definition keeps_config : effect :=
  fun self self' tr =>
    config self' = config self
    /\ (jdownloader_enable self' = jdownloader_enable self
        \/ (jdownloader_enable self = true
            /\ jdownloader_enable self' = false
            /\ In (log "Failed jdownloader setup") tr)).

(** A slot is filled by nothing but a call of its own crawler class. *)
Definition fills_by_construction (h : handler.t) : effect :=
  fun self self' tr =>
    crawler_of h self' = crawler_of h self
    \/ (crawler_of h self = None /\ 1 <= constructions h tr).

(** The agents [add_links] was called on. *)
Fixpoint handed_to (tr : list event) : list Agent :=
  match tr with
  | [] => []
  | add_links a _ _ :: tr' => a :: handed_to tr'
  | _ :: tr' => handed_to tr'
  end.

(** A connected agent is kept, the connection is not made again, and
    every hand-off goes to that agent. *)
Definition keeps_agent (a : Agent) : effect :=
  fun self self' tr =>
    jdownloader_agent self = Some a ->
    jdownloader_agent self' = Some a
    /\ connects tr = 0
    /\ Forall (eq a) (handed_to tr).

(** ** Reading the trace of a run of [download_all] *)

(** The link lists handed to [scrape]. *)
Fixpoint scraped (tr : list main.event) : list (list URL) :=
  match tr with
  | [] => []
  | main.scrape links _ _ _ _ _ _ _ _ _ _ :: tr' => links :: scraped tr'
  | _ :: tr' => scraped tr'
  end.

(** The credentials handed to [scrape]: xbunker, socialmediagirls,
    simpcity, jdownloader. *)
Fixpoint credentials (tr : list main.event)
  : list (AuthData * AuthData * AuthData * AuthData) :=
  match tr with
  | [] => []
  | main.scrape _ _ _ _ a1 a2 a3 a4 _ _ _ :: tr' =>
      (a1, a2, a3, a4) :: credentials tr'
  | _ :: tr' => credentials tr'
  end.

(** The downloads started, each with its connection timeout. *)
Fixpoint downloads (tr : list main.event) : list (main.Downloader * Z) :=
  match tr with
  | [] => []
  | main.download_content d t :: tr' => (d, t) :: downloads tr'
  | _ :: tr' => downloads tr'
  end.

(** The worker counts handed to [get_downloaders]. *)
Fixpoint workers (tr : list main.event) : list Z :=
  match tr with
  | [] => []
  | main.get_downloaders _ _ _ n _ _ :: tr' => n :: workers tr'
  | _ :: tr' => workers tr'
  end.

(** The files created or emptied, and the files removed. *)
Fixpoint touched (tr : list main.event) : list string :=
  match tr with
  | [] => []
  | main.touch p :: tr' => p :: touched tr'
  | _ :: tr' => touched tr'
  end.

Definition password_key (k : string) : bool :=
  list_in k [ "xbunker_password"; "socialmediagirls_password";
              "simpcity_password"; "jdownloader_password" ].

(** * main.py: the wrapper that silences a closed event loop *)

Module entry.

(** An exception, by what the code asks of it:
    [isinstance(e, RuntimeError)] and [str(e)]. *)
Record exc : Type := { is_RuntimeError : bool; message : string }.

(** How a call ends. *)
Inductive completion (V : Type) : Type :=
| returns (v : V)
| raises (e : exc).
Arguments returns {V} v.
Arguments raises {V} e.

Section Wrapper.

(** The world a method acts on, the values it returns and Python's
    [None] among them. *)
Variables World Self Args V : Type.
Variable None_ : V.

Definition method : Type := Self -> Args -> World -> completion V * World.

(** [silence_event_loop_closed(func)]: the wrapper it returns. *)
Definition silence_event_loop_closed (func : method) : method :=
  fun self args world =>
    match func self args world with
    | (returns v, world') => (returns v, world')
    | (raises e, world') =>
        if is_RuntimeError e then
          if negb (String.eqb (message e) "Event loop is closed")
          then (raises e, world')
          else (returns None_, world')
        else (raises e, world')
    end.

End Wrapper.

End entry.

Module more.

Definition xbunkr_url : URL :=
  mkURL "https://media.xbunkr.com/a/1" (Some "media.xbunkr.com") true.

Definition jpg_church_url : URL :=
  mkURL "https://jpg.church/img/1" (Some "jpg.church") true.

Definition gfycat_url : URL :=
  mkURL "https://gfycat.com/abc" (Some "gfycat.com") true.

Definition gif : URL :=
  mkURL "https://giant.gfycat.com/abc.mp4" (Some "giant.gfycat.com") true.

(** The fetch of a gif crawler finds the file. *)
Definition gif_found : Replies :=
  mkReplies (Some 2) None (Some (Some gif)) None [] true (Some 3) true.

(** A run that downloads. *)
Definition scraped_something : main.Replies :=
  main.mkReplies true 8 [sample.unknown_url] false false [4; 5] ["a.part"].

End more.

(** * Properties *)

(** ** Reasoning about the monad and the recursion *)

Lemma bind_get {A} (k : ScrapeMapper -> M A) (self : ScrapeMapper) :
  bind get k self = k self self.
Proof.
  unfold bind, get. destruct (k self self) as [[r s] tr]. reflexivity.
Qed.

Lemma bind_emit {A} (e : event) (k : unit -> M A) (self : ScrapeMapper) :
  bind (emit e) k self =
  (fst (fst (k tt self)), state_of (k tt self), e :: trace_of (k tt self)).
Proof.
  unfold bind, emit, state_of, trace_of.
  destruct (k tt self) as [[r s] tr]. reflexivity.
Qed.

(** Induction on the replies of a dispatch, with the property at hand for
    the replies of every inner dispatch. *)
Lemma Replies_nested_ind (P : Replies -> Prop) :
  (forall w, Forall (fun d => P (snd d)) (reentrant w) -> P w) ->
  forall w, P w.
Proof.
  intros step. fix IH 1. intros [c fd fu fc re co de la].
  apply step. simpl.
  revert re. fix IHre 1. intros [|[[u t] w'] re].
  - constructor.
  - constructor; [apply IH | apply IHre].
Qed.

Lemma map_url_unfold (w : Replies) (url_to_map : option URL)
    (title : option string) :
  map_url w url_to_map title =
  map_url_body w (dispatch_all map_url (reentrant w)) url_to_map title.
Proof. destruct w. reflexivity. Qed.

Lemma dispatch_all_cons dispatch url title w l self :
  dispatch_all dispatch ((url, title, w) :: l) self =
  (fst (fst (dispatch_all dispatch l (state_of (dispatch w url title self)))),
   state_of (dispatch_all dispatch l (state_of (dispatch w url title self))),
   trace_of (dispatch w url title self)
   ++ trace_of (dispatch_all dispatch l (state_of (dispatch w url title self)))).
Proof.
  unfold state_of, trace_of. simpl.
  destruct (dispatch w url title self) as [[r s] tr]. simpl.
  destruct (dispatch_all dispatch l s) as [[r' s'] tr']. reflexivity.
Qed.

(** The loop stops at the first key that occurs in the host: it is the
    entry [find] returns. *)
Lemma scan_find w during_fetch items url host title after_loop self :
  scan w during_fetch items url host title after_loop self =
  match find (fun kv => str_in (fst kv) host) items with
  | Some (key, value) =>
      if negb (list_in key (sites (skip_data self)))
      then invoke w during_fetch value url title self
      else (Ok tt, self, [log ("Skipping scrape of " ++ str url)])
  | None => after_loop self
  end.
Proof.
  induction items as [|[key value] rest IH]; simpl.
  - reflexivity.
  - destruct (str_in key host).
    + rewrite bind_get.
      destruct (negb (list_in key (sites (skip_data self)))); reflexivity.
    + apply IH.
Qed.

(** [find] returns an entry of the table whose key occurs in the host and
    before which no key does. *)
Lemma first_match_spec host key value :
  first_match host = Some (key, value) <->
  exists before after,
    mapping = before ++ (key, value) :: after /\
    str_in key host = true /\
    forallb (fun kv => negb (str_in (fst kv) host)) before = true.
Proof.
  unfold first_match. generalize mapping as items.
  induction items as [|[k v] rest IH]; simpl.
  - split; [discriminate|].
    intros (before & after & E & _). destruct before; discriminate.
  - destruct (str_in k host) eqn:Hk.
    + split.
      * intros [= -> ->]. exists [], rest. auto.
      * intros (before & after & E & Hkey & Hb).
        destruct before as [|[k' v'] before]; simpl in *.
        -- congruence.
        -- injection E as -> -> ->. rewrite Hk in Hb. discriminate.
    + rewrite IH. split.
      * intros (before & after & -> & Hkey & Hb).
        exists ((k, v) :: before), after. simpl. rewrite Hk. auto.
      * intros (before & after & E & Hkey & Hb).
        destruct before as [|[k' v'] before]; simpl in *.
        -- injection E as -> -> ->. congruence.
        -- injection E as -> -> ->. exists before, after.
           rewrite Hk in Hb. auto.
Qed.

(** What a dispatch does to a link that has a host. *)
Lemma map_url_with_host w s h title self :
  truthy (Some h) = true ->
  map_url w (Some (mkURL s (Some h) true)) title self =
  match first_match h with
  | Some (key, value) =>
      if negb (list_in key (sites (skip_data self)))
      then invoke w (dispatch_all map_url (reentrant w)) value
             (mkURL s (Some h) true) title self
      else (Ok tt, self, [log ("Skipping scrape of " ++ s)])
  | None =>
      no_key_matched w (mkURL s (Some h) true) h self
  end.
Proof.
  intros Hh. rewrite map_url_unfold. unfold map_url_body.
  cbn [url_bool negb host]. rewrite Hh. cbn [negb the].
  rewrite scan_find. reflexivity.
Qed.

Lemma map_url_hosted w url title self :
  url_bool url = true ->
  truthy (host url) = true ->
  map_url w (Some url) title self =
  match first_match (the (host url)) with
  | Some (key, value) =>
      if negb (list_in key (sites (skip_data self)))
      then invoke w (dispatch_all map_url (reentrant w)) value url title self
      else (Ok tt, self, [log ("Skipping scrape of " ++ str url)])
  | None => no_key_matched w url (the (host url)) self
  end.
Proof.
  destruct url as [s [h|] b]; simpl; intros -> Hh; [|discriminate].
  apply map_url_with_host. exact Hh.
Qed.

(** Runs the code of a handler or of the tail of [map_url] on symbolic
    inputs, splitting on whatever the code inspects. *)
Ltac split_on_scrutinee :=
  match goal with
  | |- context [match ?x with _ => _ end] =>
      lazymatch x with
      | context [match _ with _ => _ end] => fail
      | _ => destruct x eqn:?
      end
  end.

Ltac run_code :=
  repeat (cbn -[String.append str_in lower]; try split_on_scrutinee).

(** ** Falsy links *)

(** C8: for [None] and for a falsy URL, [map_url] returns at once: the
    router is unchanged and nothing at all is done (no log line, no
    handler, no hand-off, no write, no call on the content tree); a truthy
    URL without a host is logged as unsupported. *)
Theorem C8_falsy_link_has_no_effect (w : Replies) (title : option string)
    (self : ScrapeMapper) :
  map_url w None title self = (Ok tt, self, [])
  /\ (forall s h,
        map_url w (Some (mkURL s h false)) title self = (Ok tt, self, []))
  /\ (forall s,
        map_url w (Some (mkURL s None true)) title self =
        (Ok tt, self, [log (s ++ " is not supported currently.")]))
  /\ (forall s,
        map_url w (Some (mkURL s (Some "") true)) title self =
        (Ok tt, self, [log (s ++ " is not supported currently.")])).
Proof.
  repeat split; intros; rewrite map_url_unfold; reflexivity.
Qed.

(** ** Skipped hosts *)

(** C3: when the first key that occurs in the host is in the skip set,
    [map_url] logs the skip message and returns: the router is unchanged,
    no handler is invoked, nothing is handed to the sink and nothing is
    appended to the unsupported-links file. *)
Theorem C3_skipped_host_is_only_logged (w : Replies) (url : URL)
    (title : option string) (self : ScrapeMapper) (key : string)
    (value : handler.t) :
  url_bool url = true ->
  truthy (host url) = true ->
  first_match (the (host url)) = Some (key, value) ->
  list_in key (sites (skip_data self)) = true ->
  map_url w (Some url) title self =
    (Ok tt, self, [log ("Skipping scrape of " ++ str url)])
  /\ calls (trace_of (map_url w (Some url) title self)) = []
  /\ forwarded (trace_of (map_url w (Some url) title self)) = []
  /\ appended (trace_of (map_url w (Some url) title self)) = [].
Proof.
  intros Hb Hh Hm Hs.
  rewrite (map_url_hosted w url title self Hb Hh), Hm, Hs.
  repeat split.
Qed.

Lemma C3_skipped_host_witness :
  map_url sample.all_fine (Some sample.cyberdrop_url) None sample.skipping =
    (Ok tt, sample.skipping,
     [log ("Skipping scrape of " ++ str sample.cyberdrop_url)])
  /\ calls (trace_of (map_url sample.all_fine (Some sample.cyberdrop_url)
                        None sample.skipping)) = []
  /\ forwarded (trace_of (map_url sample.all_fine (Some sample.cyberdrop_url)
                            None sample.skipping)) = []
  /\ appended (trace_of (map_url sample.all_fine (Some sample.cyberdrop_url)
                           None sample.skipping)) = [].
Proof.
  apply (C3_skipped_host_is_only_logged sample.all_fine sample.cyberdrop_url
           None sample.skipping "cyberdrop" handler.Cyberdrop);
    reflexivity.
Defined.

(** ** Links no key matches *)

(** C5: a link whose host matches no key and contains "facebook" or
    "instagram" in any letter case is never handed to the sink, whatever
    the state of the sink and whatever the collaborators answer. *)
Theorem C5_meta_hosts_are_never_forwarded (w : Replies) (url : URL)
    (title : option string) (self : ScrapeMapper) :
  url_bool url = true ->
  truthy (host url) = true ->
  first_match (the (host url)) = None ->
  blacklisted (the (host url)) = true ->
  forwarded (trace_of (map_url w (Some url) title self)) = [].
Proof.
  intros Hb Hh Hm Hbl.
  rewrite (map_url_hosted w url title self Hb Hh), Hm.
  unfold blacklisted in Hbl.
  unfold no_key_matched, jdownloader_setup, try_except, external, bind, get,
    put, emit, raise, ret, trace_of.
  rewrite Hbl. run_code; reflexivity.
Qed.

Lemma C5_meta_hosts_witness :
  forwarded (trace_of (map_url sample.all_fine (Some sample.facebook_url)
                         None sample.with_agent)) = [].
Proof.
  apply (C5_meta_hosts_are_never_forwarded sample.all_fine
           sample.facebook_url None sample.with_agent); reflexivity.
Defined.

(** C2, as stated, fails: the sink is enabled and connected, the hand-off
    raises, and the link is logged as not sent but never appended to the
    unsupported-links file. *)
Lemma C2_failed_hand_off_is_not_recorded :
  first_match "unknownhost.example" = None
  /\ jdownloader_enable sample.with_agent = true
  /\ links_added sample.no_hand_off = false
  /\ trace_of (map_url sample.no_hand_off (Some sample.unknown_url) None
                 sample.with_agent) =
     [ log "Sending https://unknownhost.example/x to JDownloader";
       add_links 3 false "https://unknownhost.example/x";
       log "Failed to send https://unknownhost.example/x to JDownloader" ]
  /\ appended (trace_of (map_url sample.no_hand_off (Some sample.unknown_url)
                           None sample.with_agent)) = [].
Proof. repeat split. Qed.

(** C2, amended: for a link whose host matches no key, the branch is
    chosen by [jdownloader_enable] alone.  When the sink is enabled and
    the hand-off fails, the dispatch returns normally, its last act is the
    log line "Failed to send ... to JDownloader", and nothing is appended
    to the unsupported-links file.  Only with the sink disabled is the
    link logged as unsupported and appended as one line. *)
Theorem C2_failed_hand_off_is_only_logged (w : Replies) (url : URL)
    (title : option string) (self : ScrapeMapper) :
  url_bool url = true ->
  truthy (host url) = true ->
  first_match (the (host url)) = None ->
  jdownloader_enable self = true ->
  hand_off_fails w self (the (host url)) = true ->
  fst (fst (map_url w (Some url) title self)) = Ok tt
  /\ last (trace_of (map_url w (Some url) title self)) new_Session =
     log ("Failed to send " ++ str url ++ " to JDownloader")
  /\ appended (trace_of (map_url w (Some url) title self)) = []
  /\ map_url w (Some url) title (set_jdownloader_enable false self) =
     (Ok tt, set_jdownloader_enable false self,
      [ log (str url ++ " is not supported currently.");
        write Unsupported_Urls_txt (str url ++ newline) ]).
Proof.
  intros Hb Hh Hm He Hf.
  rewrite (map_url_hosted w url title self Hb Hh), Hm.
  rewrite (map_url_hosted w url title _ Hb Hh), Hm.
  revert Hf.
  unfold hand_off_fails, blacklisted, setup_fails.
  unfold no_key_matched, jdownloader_setup, try_except, external, bind, get,
    put, emit, raise, ret, trace_of.
  rewrite He.
  run_code; intros Hf; try discriminate Hf; repeat split; congruence.
Qed.

Lemma C2_failed_hand_off_witness :
  fst (fst (map_url sample.no_hand_off (Some sample.unknown_url) None
              sample.with_agent)) = Ok tt
  /\ last (trace_of (map_url sample.no_hand_off (Some sample.unknown_url)
                       None sample.with_agent)) new_Session =
     log "Failed to send https://unknownhost.example/x to JDownloader"
  /\ appended (trace_of (map_url sample.no_hand_off (Some sample.unknown_url)
                           None sample.with_agent)) = []
  /\ map_url sample.no_hand_off (Some sample.unknown_url) None
       (set_jdownloader_enable false sample.with_agent) =
     (Ok tt, set_jdownloader_enable false sample.with_agent,
      [ log "https://unknownhost.example/x is not supported currently.";
        write Unsupported_Urls_txt
          ("https://unknownhost.example/x" ++ newline) ]).
Proof.
  apply (C2_failed_hand_off_is_only_logged sample.no_hand_off
           sample.unknown_url None sample.with_agent); reflexivity.
Defined.

(** ** First match wins *)

Ltac unfold_handlers :=
  unfold invoke, method, Anonfiles, Bunkr, Cyberdrop, coomer, cyberfile, Erome,
    GoFile, gofile_crawler_started, Kemono, gfycat, Pixeldrain, Postimg,
    redgifs, Saint, ShareX, SocialMediaGirls, SimpCity, XBunker, XBunkr,
    construct_if_missing,
    crawler_fetch, forum_fetch, append_title_if, add_gif, async_with,
    try_except, external, bind, get, put, emit, raise, ret.

(** A handler invokes no handler itself; only the inner dispatches of a
    forum crawler can. *)
Lemma method_calls w during_fetch value url title self :
  is_forum value = false \/ (forall s, during_fetch s = (Ok tt, s, [])) ->
  calls (trace_of (method w during_fetch value url title self)) = [].
Proof.
  intros [Hnf | Hdf].
  - destruct value; try discriminate Hnf; clear Hnf;
      unfold trace_of; unfold_handlers; run_code; reflexivity.
  - destruct value; unfold trace_of; unfold_handlers;
      repeat (cbn -[String.append str_in lower]; rewrite ?Hdf;
              try split_on_scrutinee);
      reflexivity.
Qed.

(** C1, as stated, fails: the host is resolvable and the first key that
    occurs in it is "cyberdrop", yet no handler is invoked, because that
    key is in the skip set. *)
Lemma C1_skipped_first_key_invokes_no_handler :
  url_bool sample.cyberdrop_url = true
  /\ host sample.cyberdrop_url = Some "cyberdrop.me"
  /\ first_match "cyberdrop.me" = Some ("cyberdrop", handler.Cyberdrop)
  /\ calls (trace_of (map_url sample.all_fine (Some sample.cyberdrop_url)
                        None sample.skipping)) = [].
Proof. repeat split. Qed.

(** C1, amended: let [key] be the first key of the table, in its fixed
    order, that occurs in the host.  The scan stops there.  If [key] is in
    the skip set, no handler is invoked.  Otherwise the dispatch is the
    invocation of the handler of [key] and nothing else: its first act is
    the call of that handler, and that handler is the only one invoked,
    unless it is a forum handler whose crawler dispatches links of its own
    while it fetches. *)
Theorem C1_first_matching_key_wins (w : Replies) (url : URL)
    (title : option string) (self : ScrapeMapper)
    (before after : list (string * handler.t)) (key : string)
    (value : handler.t) :
  url_bool url = true ->
  truthy (host url) = true ->
  mapping = before ++ (key, value) :: after ->
  str_in key (the (host url)) = true ->
  forallb (fun kv => negb (str_in (fst kv) (the (host url)))) before = true ->
  if list_in key (sites (skip_data self)) then
    calls (trace_of (map_url w (Some url) title self)) = []
  else
    map_url w (Some url) title self =
      invoke w (dispatch_all map_url (reentrant w)) value url title self
    /\ hd_error (trace_of (map_url w (Some url) title self)) =
       Some (call value url title)
    /\ (is_forum value = false \/ reentrant w = [] ->
        calls (trace_of (map_url w (Some url) title self)) = [value]).
Proof.
  intros Hb Hh Hmap Hkey Hbefore.
  assert (Hm : first_match (the (host url)) = Some (key, value))
    by (apply first_match_spec; eauto).
  rewrite (map_url_hosted w url title self Hb Hh), Hm.
  destruct (list_in key (sites (skip_data self))); cbn [negb].
  - reflexivity.
  - split; [reflexivity|].
    unfold invoke. rewrite bind_emit.
    split; [reflexivity|].
    intros Hone. unfold trace_of at 1. cbn [snd calls]. f_equal.
    apply method_calls.
    destruct Hone as [Hnf | ->]; [left; exact Hnf | right; reflexivity].
Qed.

Lemma C1_first_matching_key_witness :
  map_url sample.all_fine (Some sample.cyberdrop_url) None sample.plain =
    invoke sample.all_fine (dispatch_all map_url []) handler.Cyberdrop
      sample.cyberdrop_url None sample.plain
  /\ hd_error (trace_of (map_url sample.all_fine (Some sample.cyberdrop_url)
                           None sample.plain)) =
     Some (call handler.Cyberdrop sample.cyberdrop_url None)
  /\ calls (trace_of (map_url sample.all_fine (Some sample.cyberdrop_url)
                        None sample.plain)) = [handler.Cyberdrop].
Proof.
  destruct (C1_first_matching_key_wins sample.all_fine sample.cyberdrop_url
              None sample.plain (firstn 5 mapping) (skipn 6 mapping)
              "cyberdrop" handler.Cyberdrop eq_refl eq_refl eq_refl eq_refl
              eq_refl)
    as (H1 & H2 & H3).
  split; [exact H1 | split; [exact H2 | apply H3; left; reflexivity]].
Defined.

(** ** A crawler that cannot be constructed *)

(** C4, as stated, fails: the GoFile constructor raises during a first
    dispatch; the handler is not disabled, and the next link of that host
    calls the constructor again and, as it now returns, fetches. *)
Lemma C4_gofile_is_constructed_again :
  trace_of (map_url sample.no_crawler (Some sample.gofile_url) None
              sample.plain) =
    [ call handler.GoFile sample.gofile_url None; new_Session;
      construct handler.GoFile; log "Couldn't start the GoFile crawler" ]
  /\ trace_of (map_url sample.all_fine (Some sample.other_gofile_url) None
                 (state_of (map_url sample.no_crawler
                              (Some sample.gofile_url) None sample.plain))) =
     [ call handler.GoFile sample.other_gofile_url None; new_Session;
       construct handler.GoFile;
       fetch handler.GoFile 1 sample.other_gofile_url;
       add_albums 7; exit_handler ].
Proof. split; reflexivity. Qed.

(** C4, amended: when the GoFile constructor raises, the dispatch logs
    the diagnostic and returns without raising and without fetching, and
    the router is left as it was: the slot stays empty and no flag is set.
    So the run continues, and the next link dispatched to the GoFile
    handler calls the constructor again. *)
Theorem C4_gofile_construction_failure_is_logged (w : Replies) (url : URL)
    (title : option string) (self : ScrapeMapper) (key : string)
    (w' : Replies) (url' : URL) (title' : option string) (key' : string) :
  url_bool url = true ->
  truthy (host url) = true ->
  first_match (the (host url)) = Some (key, handler.GoFile) ->
  list_in key (sites (skip_data self)) = false ->
  gofile_crawler self = None ->
  constructed w = None ->
  url_bool url' = true ->
  truthy (host url') = true ->
  first_match (the (host url')) = Some (key', handler.GoFile) ->
  list_in key' (sites (skip_data self)) = false ->
  map_url w (Some url) title self =
    (Ok tt, self,
     [ call handler.GoFile url title; new_Session; construct handler.GoFile;
       log "Couldn't start the GoFile crawler" ])
  /\ constructions handler.GoFile
       (trace_of (map_url w' (Some url') title'
                    (state_of (map_url w (Some url) title self)))) = 1.
Proof.
  intros Hb Hh Hm Hs Hslot Hc Hb' Hh' Hm' Hs'.
  assert (E : map_url w (Some url) title self =
              (Ok tt, self,
               [ call handler.GoFile url title; new_Session;
                 construct handler.GoFile;
                 log "Couldn't start the GoFile crawler" ])).
  { rewrite (map_url_hosted w url title self Hb Hh), Hm, Hs.
    unfold_handlers. rewrite Hslot, Hc. reflexivity. }
  split; [exact E|].
  rewrite E. unfold state_of. cbn [fst snd].
  rewrite (map_url_hosted w' url' title' self Hb' Hh'), Hm', Hs'.
  unfold trace_of. unfold_handlers. rewrite Hslot.
  run_code; reflexivity.
Qed.

Lemma C4_gofile_construction_failure_witness :
  map_url sample.no_crawler (Some sample.gofile_url) None sample.plain =
    (Ok tt, sample.plain,
     [ call handler.GoFile sample.gofile_url None; new_Session;
       construct handler.GoFile; log "Couldn't start the GoFile crawler" ])
  /\ constructions handler.GoFile
       (trace_of (map_url sample.all_fine (Some sample.other_gofile_url) None
                    (state_of (map_url sample.no_crawler
                                 (Some sample.gofile_url) None
                                 sample.plain)))) = 1.
Proof.
  apply (C4_gofile_construction_failure_is_logged sample.no_crawler
           sample.gofile_url None sample.plain "gofile.io" sample.all_fine
           sample.other_gofile_url None "gofile.io"); reflexivity.
Defined.

(** ** Effects that every dispatch of a run respects *)

Section Respect.

Variable R : effect.
Hypothesis R_refl : forall s, R s s [].
Hypothesis R_trans :
  forall s1 s2 s3 t1 t2, R s1 s2 t1 -> R s2 s3 t2 -> R s1 s3 (t1 ++ t2).
Hypothesis R_plain : forall e s, plain_event e = true -> R s s [e].

Lemma respects_ret {A} (a : A) : respects R (ret a).
Proof. intros s. apply R_refl. Qed.

Lemma respects_raise {A} (e : exn) : respects R (@raise A e).
Proof. intros s. apply R_refl. Qed.

Lemma respects_get : respects R get.
Proof. intros s. apply R_refl. Qed.

Lemma respects_emit (e : event) : plain_event e = true -> respects R (emit e).
Proof. intros He s. apply R_plain, He. Qed.

Lemma respects_bind {A B} (m : M A) (k : A -> M B) :
  respects R m -> (forall a, respects R (k a)) -> respects R (bind m k).
Proof.
  intros Hm Hk s. specialize (Hm s). unfold bind, state_of, trace_of in *.
  destruct (m s) as [[[a|e] s'] tr]; simpl in *.
  - specialize (Hk a s'). unfold state_of, trace_of in Hk.
    destruct (k a s') as [[r s''] tr']. simpl in *. eauto.
  - exact Hm.
Qed.

Lemma respects_try_except {A} (body handler : M A) :
  respects R body -> respects R handler ->
  respects R (try_except body handler).
Proof.
  intros Hb Hh s. specialize (Hb s).
  unfold try_except, state_of, trace_of in *.
  destruct (body s) as [[[a|e] s'] tr]; simpl in *.
  - exact Hb.
  - specialize (Hh s'). unfold state_of, trace_of in Hh.
    destruct (handler s') as [[r s''] tr']. simpl in *. eauto.
Qed.

Lemma respects_async_with {A} (l : limiter) (body : M A) :
  respects R body -> respects R (async_with l body).
Proof.
  intros Hb s. specialize (Hb s). unfold async_with, state_of, trace_of in *.
  destruct (body s) as [[r s'] tr]. simpl in *.
  change (acquire l :: tr ++ [release l])
    with ([acquire l] ++ tr ++ [release l]).
  apply R_trans with s; [apply R_plain; reflexivity|].
  apply R_trans with s'; [exact Hb | apply R_plain; reflexivity].
Qed.

(** What is left to check for a given effect: the code that builds or
    uses a crawler, and the code that follows the loop of [map_url]. *)
Hypothesis R_construct : forall w h, respects R (construct_if_missing w h).
Hypothesis R_gofile : forall w, respects R (gofile_crawler_started w).
Hypothesis R_fetch_event :
  forall h c url s, crawler_of h s = Some c -> R s s [fetch h c url].
Hypothesis R_no_key_matched :
  forall w url host, respects R (no_key_matched w url host).

Lemma R_fetch {A} h url (reply : option A) :
  respects R (crawler_fetch h url reply).
Proof.
  intros s. unfold crawler_fetch. rewrite bind_get.
  destruct (crawler_of h s) as [c|] eqn:Hc; [|apply R_refl].
  unfold external. rewrite bind_emit.
  unfold state_of at 1, trace_of at 1. cbn [fst snd].
  change (fetch h c url :: ?t) with ([fetch h c url] ++ t).
  apply R_trans with s; [apply R_fetch_event, Hc|].
  destruct reply; apply R_refl.
Qed.

Lemma R_forum_fetch w during_fetch h url :
  respects R during_fetch -> respects R (forum_fetch w during_fetch h url).
Proof.
  intros Hdf s. unfold forum_fetch. rewrite bind_get.
  destruct (crawler_of h s) as [c|] eqn:Hc; [|apply R_refl].
  rewrite bind_emit.
  unfold state_of at 1, trace_of at 1. cbn [fst snd].
  change (fetch h c url :: ?t) with ([fetch h c url] ++ t).
  apply R_trans with s; [apply R_fetch_event, Hc|].
  apply respects_bind; [exact Hdf|].
  intros _ s'. destruct (fetched_cascade w); apply R_refl.
Qed.

Ltac respect :=
  repeat first
    [ apply R_construct | apply R_gofile | apply R_fetch
    | apply R_forum_fetch; assumption
    | apply respects_ret | apply respects_raise | apply respects_get
    | apply respects_emit; reflexivity
    | apply respects_async_with
    | apply respects_bind; [|intros]
    | match goal with
      | |- respects _ (match ?x with _ => _ end) => destruct x
      end ].

Lemma method_respects w during_fetch h url title :
  respects R during_fetch -> respects R (method w during_fetch h url title).
Proof.
  intros Hdf.
  destruct h; unfold method, Anonfiles, Bunkr, Cyberdrop, coomer, cyberfile,
    Erome, GoFile, Kemono, gfycat, Pixeldrain, Postimg, redgifs, Saint, ShareX,
    SocialMediaGirls, SimpCity, XBunker, XBunkr, append_title_if, add_gif;
    respect.
Qed.

Lemma scan_respects w during_fetch items url host title after_loop :
  respects R during_fetch -> respects R after_loop ->
  respects R (scan w during_fetch items url host title after_loop).
Proof.
  intros Hdf Hafter.
  induction items as [|[key value] rest IH]; simpl; [exact Hafter|].
  destruct (str_in key host); [|exact IH].
  unfold invoke. respect. apply method_respects, Hdf.
Qed.

Lemma map_url_body_respects w during_fetch url_to_map title :
  respects R during_fetch ->
  respects R (map_url_body w during_fetch url_to_map title).
Proof.
  intros Hdf. unfold map_url_body. respect.
  apply scan_respects; [exact Hdf | apply R_no_key_matched].
Qed.

Lemma dispatch_all_respects dispatch l :
  Forall (fun d => forall url title, respects R (dispatch (snd d) url title))
         l ->
  respects R (dispatch_all dispatch l).
Proof.
  induction 1 as [|[[url title] w] l Hd _ IH]; intros s.
  - apply R_refl.
  - rewrite dispatch_all_cons. unfold state_of at 1, trace_of at 1.
    cbn [fst snd]. eapply R_trans; [apply Hd | apply IH].
Qed.

(** Every dispatch respects the effect, the inner dispatches of forum
    crawlers included, and so does every run. *)
Lemma map_url_respects w : forall url_to_map title,
  respects R (map_url w url_to_map title).
Proof.
  induction w as [w IH] using Replies_nested_ind. intros url_to_map title.
  rewrite map_url_unfold.
  apply map_url_body_respects, dispatch_all_respects, IH.
Qed.

Lemma run_respects links : respects R (run links).
Proof.
  apply dispatch_all_respects, Forall_forall.
  intros d _ url title. apply map_url_respects.
Qed.

End Respect.

(** ** One crawler per handler *)

Lemma handler_eqb_eq (a b : handler.t) : handler.eqb a b = true <-> a = b.
Proof. destruct a, b; simpl; split; congruence. Qed.

Lemma handler_eqb_refl (a : handler.t) : handler.eqb a a = true.
Proof. destruct a; reflexivity. Qed.

Lemma crawler_of_set_crawler h h0 c0 self :
  crawler_of h (set_crawler h0 c0 self) =
  if handler.eqb h0 h then Some c0 else crawler_of h self.
Proof. destruct h, h0; reflexivity. Qed.

Lemma crawler_of_set_jdownloader_agent h a self :
  crawler_of h (set_jdownloader_agent a self) = crawler_of h self.
Proof. destruct h; reflexivity. Qed.

Lemma crawler_of_set_jdownloader_enable h b self :
  crawler_of h (set_jdownloader_enable b self) = crawler_of h self.
Proof. destruct h; reflexivity. Qed.

Lemma constructions_app h t1 t2 :
  constructions h (t1 ++ t2) = constructions h t1 + constructions h t2.
Proof.
  induction t1 as [|e t1 IH]; simpl; [reflexivity|].
  destruct e; simpl; rewrite ?IH; try reflexivity. lia.
Qed.

Lemma fetched_with_app h t1 t2 :
  fetched_with h (t1 ++ t2) = fetched_with h t1 ++ fetched_with h t2.
Proof.
  induction t1 as [|e t1 IH]; simpl; [reflexivity|].
  destruct e; simpl; rewrite ?IH; try reflexivity.
  destruct (handler.eqb h h0); simpl; rewrite ?IH; reflexivity.
Qed.

Lemma keeps_crawler_refl h c s : keeps_crawler h c s s [].
Proof. intros Hs. simpl. auto. Qed.

Lemma keeps_crawler_trans h c s1 s2 s3 t1 t2 :
  keeps_crawler h c s1 s2 t1 -> keeps_crawler h c s2 s3 t2 ->
  keeps_crawler h c s1 s3 (t1 ++ t2).
Proof.
  intros H1 H2 Hs. destruct (H1 Hs) as (Hs2 & Hc1 & Hf1).
  destruct (H2 Hs2) as (Hs3 & Hc2 & Hf2).
  rewrite constructions_app, fetched_with_app, Hc1, Hc2.
  repeat split; [exact Hs3 | apply Forall_app; auto].
Qed.

Lemma keeps_crawler_plain h c e s :
  plain_event e = true -> keeps_crawler h c s s [e].
Proof. intros He Hs. destruct e; try discriminate He; simpl; auto. Qed.

Lemma keeps_crawler_construct h c w h0 :
  respects (keeps_crawler h c) (construct_if_missing w h0).
Proof.
  intros s Hs. unfold construct_if_missing. rewrite bind_get.
  destruct (crawler_of h0 s) as [c0|] eqn:H0.
  - simpl. auto.
  - assert (Hne : handler.eqb h h0 = false).
    { destruct (handler.eqb h h0) eqn:E; [|reflexivity].
      apply handler_eqb_eq in E. congruence. }
    assert (Hne' : handler.eqb h0 h = false).
    { destruct (handler.eqb h0 h) eqn:E; [|reflexivity].
      apply handler_eqb_eq in E. congruence. }
    unfold external, bind, emit, put, ret, raise, state_of, trace_of.
    destruct (constructed w) as [c1|]; simpl; rewrite Hne; simpl;
      rewrite ?crawler_of_set_crawler, ?Hne'; auto.
Qed.

Lemma keeps_crawler_gofile h c w :
  respects (keeps_crawler h c) (gofile_crawler_started w).
Proof.
  intros s Hs. unfold gofile_crawler_started. rewrite bind_get.
  destruct (gofile_crawler s) as [c0|] eqn:H0.
  - simpl. auto.
  - assert (Hne : handler.eqb h handler.GoFile = false).
    { destruct h; try reflexivity. simpl in Hs. congruence. }
    assert (Hne' : handler.eqb handler.GoFile h = false).
    { destruct h; try reflexivity. simpl in Hs. congruence. }
    unfold try_except, external, bind, emit, put, ret, raise, state_of,
      trace_of.
    destruct (constructed w) as [c1|]; simpl; rewrite Hne; simpl;
      rewrite ?crawler_of_set_crawler, ?Hne'; auto.
Qed.

Lemma keeps_crawler_fetch_event h c h0 c0 url s :
  crawler_of h0 s = Some c0 -> keeps_crawler h c s s [fetch h0 c0 url].
Proof.
  intros H0 Hs. simpl. split; [exact Hs|]. split; [reflexivity|].
  destruct (handler.eqb h h0) eqn:E; auto.
  apply handler_eqb_eq in E. subst h0. constructor; auto. congruence.
Qed.

Lemma keeps_crawler_no_key_matched h c w url host :
  respects (keeps_crawler h c) (no_key_matched w url host).
Proof.
  intros s Hs.
  unfold no_key_matched, jdownloader_setup, try_except, external, bind, get,
    put, emit, raise, ret, state_of, trace_of.
  run_code;
    rewrite ?crawler_of_set_jdownloader_agent,
      ?crawler_of_set_jdownloader_enable;
    repeat split; try assumption; try constructor;
    destruct h; assumption.
Qed.

(** Once the slot of a handler is filled, no dispatch of a run empties or
    refills it, none calls the crawler class again, and every fetch for
    that handler is made on the stored crawler. *)
Lemma run_keeps_crawler h c links :
  respects (keeps_crawler h c) (run links).
Proof.
  apply run_respects.
  - apply keeps_crawler_refl.
  - apply keeps_crawler_trans.
  - intros e s. apply keeps_crawler_plain.
  - apply keeps_crawler_construct.
  - apply keeps_crawler_gofile.
  - apply keeps_crawler_fetch_event.
  - apply keeps_crawler_no_key_matched.
Qed.

(** The first use of a handler: its crawler class is called once, right
    after the session is made, and the handler then runs as it does with
    the new crawler in its slot. *)
Lemma method_first_use h c w during_fetch url title self :
  crawler_of h self = None ->
  constructed w = Some c ->
  method w during_fetch h url title self =
  let '(r, self', tr) :=
    method w during_fetch h url title (set_crawler h c self) in
  (r, self', new_Session :: construct h :: tl tr).
Proof.
  intros Hslot Hc.
  destruct h; simpl in Hslot; unfold_handlers;
    cbn -[String.append str_in lower]; rewrite Hslot, Hc;
    run_code; reflexivity.
Qed.

Lemma constructions_tl h tr :
  constructions h tr = 0 -> constructions h (tl tr) = 0.
Proof. destruct tr as [|[] tr]; simpl; auto. lia. Qed.

Lemma fetched_with_tl h c tr :
  Forall (eq c) (fetched_with h tr) -> Forall (eq c) (fetched_with h (tl tr)).
Proof.
  destruct tr as [|[] tr]; simpl; auto.
  destruct (handler.eqb h h0); auto. inversion 1; auto.
Qed.

(** With its slot filled a handler fetches its link on the crawler of the
    slot, once its session is made. *)
Lemma method_fetches w during_fetch h c url title self :
  crawler_of h self = Some c ->
  truthy (host url) = true ->
  In (fetch h c url)
     (tl (trace_of (method w during_fetch h url title self))).
Proof.
  intros Hslot Hhost.
  destruct (host url) as [hst|] eqn:Eh; [clear Hhost | discriminate Hhost].
  destruct h; simpl in Hslot; unfold trace_of; unfold_handlers;
    cbn -[String.append str_in lower]; rewrite ?Hslot, ?Eh;
    run_code;
    first [ congruence
          | match goal with
            | H : Some _ = Some _ |- _ => injection H as ->
            end; simpl; auto 10
          | simpl; auto 10 ].
Qed.

(** A crawler class that raises on a first use: nothing is stored and
    nothing is fetched; [GoFile] logs that and returns, from every other
    handler the exception goes on to the caller. *)
Lemma method_without_crawler w during_fetch h url title self :
  crawler_of h self = None ->
  constructed w = None ->
  method w during_fetch h url title self =
  if handler.eqb h handler.GoFile
  then (Ok tt, self,
        [new_Session; construct h; log "Couldn't start the GoFile crawler"])
  else (Raised (raised_by (construct h)), self, [new_Session; construct h]).
Proof.
  intros Hslot Hc.
  destruct h; simpl in Hslot; unfold_handlers;
    cbn -[String.append str_in lower]; rewrite Hslot, Hc; reflexivity.
Qed.

(** A handler run with its slot filled: the crawler stays, its class is
    not called, and the link is fetched on that crawler and on no other. *)
Lemma method_reuses_crawler h c w url title self :
  crawler_of h self = Some c ->
  truthy (host url) = true ->
  let m := method w (dispatch_all map_url (reentrant w)) h url title self in
  crawler_of h (state_of m) = Some c
  /\ constructions h (trace_of m) = 0
  /\ In (fetch h c url) (tl (trace_of m))
  /\ Forall (eq c) (fetched_with h (trace_of m)).
Proof.
  intros Hslot Hhost m. subst m.
  assert (Hdf : respects (keeps_crawler h c)
                  (dispatch_all map_url (reentrant w)))
    by apply (run_keeps_crawler h c (reentrant w)).
  pose proof (method_respects (keeps_crawler h c) (keeps_crawler_refl h c)
                (keeps_crawler_trans h c)
                (fun e s => keeps_crawler_plain h c e s)
                (keeps_crawler_construct h c) (keeps_crawler_gofile h c)
                (keeps_crawler_fetch_event h c)
                w _ h url title Hdf self Hslot)
    as (Hs & Hn & Hf).
  split; [exact Hs|]. split; [exact Hn|]. split; [|exact Hf].
  apply method_fetches; assumption.
Qed.

Lemma In_tl {A} (x : A) (l : list A) : In x (tl l) -> In x l.
Proof. destruct l; [auto | right; assumption]. Qed.

(** C7, as stated, fails: the first invocation of the [GoFile] handler
    does not construct the crawler when its class raises; nothing is
    stored, and the second invocation calls the class again: twice in one
    run.  For any other handler the first invocation then raises, and
    nothing is stored either. *)
Lemma C7_failed_constructor_is_called_again :
  let first :=
    invoke sample.no_crawler (dispatch_all map_url []) handler.GoFile
      sample.gofile_url None sample.plain in
  let second :=
    invoke sample.all_fine (dispatch_all map_url []) handler.GoFile
      sample.other_gofile_url None (state_of first) in
  let other :=
    invoke sample.no_crawler (dispatch_all map_url []) handler.Cyberdrop
      sample.cyberdrop_url None sample.plain in
  crawler_of handler.GoFile (state_of first) = None
  /\ fetched_with handler.GoFile (trace_of first) = []
  /\ crawler_of handler.GoFile (state_of second) = Some 1
  /\ constructions handler.GoFile (trace_of first ++ trace_of second) = 2
  /\ constructions handler.GoFile
       (trace_of (run [ (Some sample.gofile_url, None, sample.no_crawler);
                        (Some sample.other_gofile_url, None,
                         sample.all_fine) ]
                      sample.plain)) = 2
  /\ other = (Raised (raised_by (construct handler.Cyberdrop)), sample.plain,
              [ call handler.Cyberdrop sample.cyberdrop_url None; new_Session;
                construct handler.Cyberdrop ]).
Proof. repeat split. Qed.

(** C7, amended.  A handler invoked with its slot empty calls its crawler
    class exactly once.  When the class returns a crawler, the handler
    stores it and fetches the link on it; from then on, through any
    further dispatches (inner dispatches of forum crawlers included), the
    slot holds that same crawler and the class is not called; and an
    invocation of the handler after them does not call the class either,
    keeps the crawler and fetches its link on that very crawler, as does
    every fetch made for the handler in between.  When the class raises,
    nothing is stored and nothing fetched: the router is left as it was
    (so the next invocation calls the class again); [GoFile] logs the
    failure and returns, every other handler lets the exception through. *)
Theorem C7_crawler_is_constructed_once (h : handler.t)
    (w : Replies) (url : URL) (title : option string) (self : ScrapeMapper)
    (links : list (option URL * option string * Replies))
    (w' : Replies) (url' : URL) (title' : option string) :
  crawler_of h self = None ->
  truthy (host url) = true ->
  truthy (host url') = true ->
  let first := invoke w (dispatch_all map_url (reentrant w)) h url title self in
  let later := run links (state_of first) in
  let again :=
    invoke w' (dispatch_all map_url (reentrant w')) h url' title'
      (state_of later) in
  constructions h (trace_of first) = 1
  /\ match constructed w with
     | Some c =>
         crawler_of h (state_of first) = Some c
         /\ In (fetch h c url) (trace_of first)
         /\ crawler_of h (state_of later) = Some c
         /\ constructions h (trace_of later) = 0
         /\ crawler_of h (state_of again) = Some c
         /\ constructions h (trace_of again) = 0
         /\ In (fetch h c url') (trace_of again)
         /\ Forall (eq c)
              (fetched_with h
                 (trace_of first ++ trace_of later ++ trace_of again))
     | None =>
         first =
         ( (if handler.eqb h handler.GoFile then Ok tt
            else Raised (raised_by (construct h))),
           self,
           call h url title :: new_Session :: construct h
           :: (if handler.eqb h handler.GoFile
               then [log "Couldn't start the GoFile crawler"] else []) )
     end.
Proof.
  intros Hslot Hhost Hhost' first later again.
  destruct (constructed w) as [c|] eqn:Hc.
  - assert (Hfilled : crawler_of h (set_crawler h c self) = Some c)
      by (rewrite crawler_of_set_crawler, handler_eqb_refl; reflexivity).
    assert (H1 : crawler_of h (state_of first) = Some c
                 /\ constructions h (trace_of first) = 1
                 /\ In (fetch h c url) (trace_of first)
                 /\ Forall (eq c) (fetched_with h (trace_of first))).
    { destruct (method_reuses_crawler h c w url title (set_crawler h c self)
                  Hfilled Hhost) as (Hs & Hn & Hin & Hf).
      subst first. unfold invoke. rewrite bind_emit.
      rewrite (method_first_use h c w _ url title self Hslot Hc).
      unfold state_of, trace_of in *.
      destruct (method w (dispatch_all map_url (reentrant w)) h url title
                  (set_crawler h c self)) as [[r s'] tr].
      cbn [fst snd constructions fetched_with] in *.
      rewrite handler_eqb_refl, (constructions_tl h tr Hn).
      split; [exact Hs|]. split; [reflexivity|].
      split; [|apply fetched_with_tl, Hf].
      right. right. right. exact Hin. }
    destruct H1 as (Hs1 & Hn1 & Hin1 & Hf1).
    destruct (run_keeps_crawler h c links (state_of first) Hs1)
      as (Hs2 & Hn2 & Hf2).
    assert (H3 : crawler_of h (state_of again) = Some c
                 /\ constructions h (trace_of again) = 0
                 /\ In (fetch h c url') (trace_of again)
                 /\ Forall (eq c) (fetched_with h (trace_of again))).
    { destruct (method_reuses_crawler h c w' url' title' (state_of later)
                  Hs2 Hhost') as (Hs & Hn & Hin & Hf).
      subst again. unfold invoke. rewrite bind_emit.
      unfold state_of, trace_of in *. cbn [fst snd constructions fetched_with].
      split; [exact Hs|]. split; [exact Hn|]. split; [|exact Hf].
      right. apply In_tl, Hin. }
    destruct H3 as (Hs3 & Hn3 & Hin3 & Hf3).
    split; [exact Hn1|].
    repeat (split; [assumption|]).
    rewrite !fetched_with_app. repeat (apply Forall_app; split); assumption.
  - subst first. unfold invoke. rewrite bind_emit.
    rewrite (method_without_crawler w _ h url title self Hslot Hc).
    unfold state_of, trace_of.
    destruct (handler.eqb h handler.GoFile) eqn:E; cbn [fst snd constructions];
      rewrite handler_eqb_refl; split; reflexivity.
Qed.

Lemma C7_crawler_is_constructed_once_witness :
  let first :=
    invoke sample.thread (dispatch_all map_url (reentrant sample.thread))
      handler.SimpCity sample.simpcity_url None sample.plain in
  let later :=
    run [ (Some sample.simpcity_url, None, sample.all_fine);
          (Some sample.cyberdrop_url, None, sample.no_crawler) ]
        (state_of first) in
  let again :=
    invoke sample.all_fine (dispatch_all map_url (reentrant sample.all_fine))
      handler.SimpCity sample.simpcity_url (Some "again") (state_of later) in
  constructions handler.SimpCity (trace_of first) = 1
  /\ crawler_of handler.SimpCity (state_of first) = Some 5
  /\ In (fetch handler.SimpCity 5 sample.simpcity_url) (trace_of first)
  /\ crawler_of handler.SimpCity (state_of later) = Some 5
  /\ constructions handler.SimpCity (trace_of later) = 0
  /\ crawler_of handler.SimpCity (state_of again) = Some 5
  /\ constructions handler.SimpCity (trace_of again) = 0
  /\ In (fetch handler.SimpCity 5 sample.simpcity_url) (trace_of again)
  /\ Forall (eq 5)
       (fetched_with handler.SimpCity
          (trace_of first ++ trace_of later ++ trace_of again)).
Proof.
  apply (C7_crawler_is_constructed_once handler.SimpCity sample.thread
           sample.simpcity_url None sample.plain
           [ (Some sample.simpcity_url, None, sample.all_fine);
             (Some sample.cyberdrop_url, None, sample.no_crawler) ]
           sample.all_fine sample.simpcity_url (Some "again"));
    reflexivity.
Defined.

(** ** A sink that cannot be set up *)

Lemma forwarded_app t1 t2 : forwarded (t1 ++ t2) = forwarded t1 ++ forwarded t2.
Proof.
  induction t1 as [|e t1 IH]; simpl; [reflexivity|].
  destruct e; simpl; rewrite ?IH; reflexivity.
Qed.

Lemma stays_disabled_refl s : stays_disabled s s [].
Proof. intros Hs. auto. Qed.

Lemma stays_disabled_trans s1 s2 s3 t1 t2 :
  stays_disabled s1 s2 t1 -> stays_disabled s2 s3 t2 ->
  stays_disabled s1 s3 (t1 ++ t2).
Proof.
  intros H1 H2 Hs. destruct (H1 Hs) as (Hs2 & Hf1).
  destruct (H2 Hs2) as (Hs3 & Hf2).
  rewrite forwarded_app, Hf1, Hf2. auto.
Qed.

Lemma stays_disabled_plain e s :
  plain_event e = true -> stays_disabled s s [e].
Proof. intros He Hs. destruct e; try discriminate He; simpl; auto. Qed.

Lemma stays_disabled_construct w h :
  respects stays_disabled (construct_if_missing w h).
Proof.
  intros s Hs.
  unfold construct_if_missing, external, bind, get, put, emit, raise, ret,
    state_of, trace_of.
  run_code; auto.
Qed.

Lemma stays_disabled_gofile w :
  respects stays_disabled (gofile_crawler_started w).
Proof.
  intros s Hs.
  unfold gofile_crawler_started, try_except, external, bind, get, put, emit,
    raise, ret, state_of, trace_of.
  run_code; auto.
Qed.

Lemma stays_disabled_fetch_event h c url s :
  crawler_of h s = Some c -> stays_disabled s s [fetch h c url].
Proof. intros _ Hs. simpl. auto. Qed.

Lemma stays_disabled_no_key_matched w url host :
  respects stays_disabled (no_key_matched w url host).
Proof.
  intros s Hs.
  unfold no_key_matched, bind, get, emit, state_of, trace_of.
  rewrite Hs. simpl. auto.
Qed.

(** Nothing in the router ever sets [jdownloader_enable] again: once it is
    [False] it stays so through every dispatch, and nothing is handed to
    the agent. *)
Lemma run_stays_disabled links : respects stays_disabled (run links).
Proof.
  apply run_respects.
  - apply stays_disabled_refl.
  - apply stays_disabled_trans.
  - apply stays_disabled_plain.
  - apply stays_disabled_construct.
  - apply stays_disabled_gofile.
  - apply stays_disabled_fetch_event.
  - apply stays_disabled_no_key_matched.
Qed.

(** C10: when [jdownloader_setup] fails (a credential or the device name
    is missing, or the connection or the device lookup raises) it logs
    "Failed jdownloader setup" and sets [jdownloader_enable] to [False].
    The unmatched link whose dispatch ran that setup is then neither
    handed to the agent nor appended to the unsupported-links file, and
    the dispatch returns normally.  After it, whatever is dispatched in
    between, the sink stays disabled and receives nothing, and an
    unmatched link is logged as unsupported and appended to the file. *)
Theorem C10_failed_setup_disables_the_sink (w : Replies) (url : URL)
    (title : option string) (self : ScrapeMapper)
    (links : list (option URL * option string * Replies))
    (w' : Replies) (url' : URL) (title' : option string) :
  url_bool url = true ->
  truthy (host url) = true ->
  first_match (the (host url)) = None ->
  jdownloader_enable self = true ->
  jdownloader_agent self = None ->
  setup_fails w self = true ->
  url_bool url' = true ->
  truthy (host url') = true ->
  first_match (the (host url')) = None ->
  let setup := jdownloader_setup w self in
  let failed := map_url w (Some url) title self in
  let later := run links (state_of failed) in
  fst (fst setup) = Ok tt
  /\ state_of setup = set_jdownloader_enable false self
  /\ last (trace_of setup) new_Session = log "Failed jdownloader setup"
  /\ fst (fst failed) = Ok tt
  /\ state_of failed = set_jdownloader_enable false self
  /\ forwarded (trace_of failed) = []
  /\ appended (trace_of failed) = []
  /\ jdownloader_enable (state_of later) = false
  /\ forwarded (trace_of later) = []
  /\ map_url w' (Some url') title' (state_of later) =
     (Ok tt, state_of later,
      [ log (str url' ++ " is not supported currently.");
        write Unsupported_Urls_txt (str url' ++ newline) ]).
Proof.
  intros Hb Hh Hm He Ha Hf Hb' Hh' Hm' setup failed later.
  assert (Hsetup : fst (fst setup) = Ok tt
                   /\ state_of setup = set_jdownloader_enable false self
                   /\ last (trace_of setup) new_Session =
                      log "Failed jdownloader setup").
  { subst setup. revert Hf.
    unfold setup_fails, jdownloader_setup, try_except, external, bind, get,
      put, emit, raise, ret, state_of, trace_of.
    run_code; intros Hf; try discriminate Hf; repeat split. }
  assert (Hfailed : fst (fst failed) = Ok tt
                    /\ state_of failed = set_jdownloader_enable false self
                    /\ forwarded (trace_of failed) = []
                    /\ appended (trace_of failed) = []).
  { subst failed.
    rewrite (map_url_hosted w url title self Hb Hh), Hm.
    revert Hf.
    unfold setup_fails, no_key_matched, jdownloader_setup, try_except,
      external, bind, get, put, emit, raise, ret, state_of, trace_of.
    rewrite He, Ha.
    run_code; intros Hf; try discriminate Hf; try discriminate Ha;
      repeat split. }
  destruct Hsetup as (S1 & S2 & S3). destruct Hfailed as (F1 & F2 & F3 & F4).
  assert (Hoff : jdownloader_enable (state_of failed) = false)
    by (rewrite F2; reflexivity).
  destruct (run_stays_disabled links (state_of failed) Hoff) as (L1 & L2).
  fold later in L1, L2.
  repeat split; try assumption.
  rewrite (map_url_hosted w' url' title' (state_of later) Hb' Hh'), Hm'.
  unfold no_key_matched, bind, get, emit. rewrite L1. reflexivity.
Qed.

Lemma C10_failed_setup_witness :
  let setup := jdownloader_setup sample.all_fine
                 sample.sink_without_credentials in
  let failed := map_url sample.all_fine (Some sample.unknown_url) None
                  sample.sink_without_credentials in
  let later := run [ (Some sample.simpcity_url, None, sample.thread);
                     (Some sample.facebook_url, None, sample.all_fine) ]
                   (state_of failed) in
  fst (fst setup) = Ok tt
  /\ state_of setup =
     set_jdownloader_enable false sample.sink_without_credentials
  /\ last (trace_of setup) new_Session = log "Failed jdownloader setup"
  /\ fst (fst failed) = Ok tt
  /\ state_of failed =
     set_jdownloader_enable false sample.sink_without_credentials
  /\ forwarded (trace_of failed) = []
  /\ appended (trace_of failed) = []
  /\ jdownloader_enable (state_of later) = false
  /\ forwarded (trace_of later) = []
  /\ map_url sample.no_hand_off (Some sample.unknown_url) (Some "t")
       (state_of later) =
     (Ok tt, state_of later,
      [ log (str sample.unknown_url ++ " is not supported currently.");
        write Unsupported_Urls_txt (str sample.unknown_url ++ newline) ]).
Proof.
  apply (C10_failed_setup_disables_the_sink sample.all_fine
           sample.unknown_url None sample.sink_without_credentials
           [ (Some sample.simpcity_url, None, sample.thread);
             (Some sample.facebook_url, None, sample.all_fine) ]
           sample.no_hand_off sample.unknown_url (Some "t")); reflexivity.
Defined.

(** * The start of a run *)





(** What [log] receives in a run whose scrape found nothing. *)
Lemma logged_empty_scrape VERSION repr URL_of sibling args w :
  main.is_file w = true ->
  main.is_empty w = true ->
  links_of URL_of args w <> [] ->
  logged (snd (main.download_all VERSION repr URL_of sibling args w)) =
  [ ("We are running version " ++ VERSION ++ " of Cyberdrop Downloader")%string;
    main.No_links_found_scraping;
    "This program does not currently support password protected albums." ].
Proof.
  intros Hfile Hempty Hlinks. unfold links_of in Hlinks.
  unfold main.download_all, main.after_scrape.
  rewrite Hfile, Hempty. cbn [negb snd].
  destruct (filter url_bool
              (map URL_of (main.links args) ++ main.regex_links w));
    [congruence|].
  destruct (main.output_last_forum_post args), (main.last_post_exists w);
    reflexivity.
Qed.

(** C6: when the input file exists, the link list is not empty and the
    scrape leaves an empty content tree, the run ends with [exit(0)] right
    after reporting "No links found duing scraping ...": no downloader is
    built and no download is started, and neither the end-of-run reports
    ("Finished downloading", "There are still partial downloads") nor the
    report of an empty link list are logged. *)
Theorem C6_empty_scrape_is_reported (VERSION : string)
    (repr : main.value -> string) (URL_of : string -> URL)
    (sibling : string -> string -> string) (args : main.Namespace)
    (w : main.Replies) :
  main.is_file w = true ->
  main.is_empty w = true ->
  links_of URL_of args w <> [] ->
  let run := main.download_all VERSION repr URL_of sibling args w in
  fst run = main.exit 0
  /\ (exists before,
        snd run =
        before ++
        [ main.logging_error "ValueError No links";
          main.log main.No_links_found_scraping (Some main.RED);
          main.log
            "This program does not currently support password protected albums."
            (Some main.RED) ])
  /\ existsb starts_download (snd run) = false
  /\ ~ In main.Finished_downloading (logged (snd run))
  /\ ~ In main.still_partial (logged (snd run))
  /\ ~ In main.No_links_found_check (logged (snd run))
  /\ main.No_links_found_scraping <> main.Finished_downloading
  /\ main.No_links_found_scraping <> main.still_partial.
Proof.
  intros Hfile Hempty Hlinks run. subst run.
  rewrite (logged_empty_scrape VERSION repr URL_of sibling args w
             Hfile Hempty Hlinks).
  unfold main.download_all, main.after_scrape.
  rewrite Hfile, Hempty. cbn [negb fst snd].
  split; [reflexivity|].
  split; [eexists; rewrite !app_assoc; reflexivity|].
  split.
  { destruct (filter url_bool _), (main.output_last_forum_post args),
      (main.last_post_exists w); reflexivity. }
  repeat split; try discriminate;
    intros [E | [E | [E | []]]]; discriminate E.
Qed.

Lemma C6_empty_scrape_witness :
  let run := main.download_all "4.2.0" sample.repr sample.URL_of
               sample.sibling sample.args sample.nothing_scraped in
  fst run = main.exit 0
  /\ (exists before,
        snd run =
        before ++
        [ main.logging_error "ValueError No links";
          main.log main.No_links_found_scraping (Some main.RED);
          main.log
            "This program does not currently support password protected albums."
            (Some main.RED) ])
  /\ existsb starts_download (snd run) = false
  /\ ~ In main.Finished_downloading (logged (snd run))
  /\ ~ In main.still_partial (logged (snd run))
  /\ ~ In main.No_links_found_check (logged (snd run))
  /\ main.No_links_found_scraping <> main.Finished_downloading
  /\ main.No_links_found_scraping <> main.still_partial.
Proof.
  apply (C6_empty_scrape_is_reported "4.2.0" sample.repr sample.URL_of
           sample.sibling sample.args sample.nothing_scraped);
    [reflexivity | reflexivity | discriminate].
Defined.

(** * Further properties of the router *)

(** ** Links no key matches, once more *)

(** X1: a link whose host matches no key never makes [map_url] raise,
    whatever the sink does; no handler is invoked, no crawler is built or
    used, nothing is merged into the content tree, and the crawler slots
    and the configuration of the router are left as they were. *)
Theorem unmatched_link_stays_away_from_crawlers (w : Replies) (url : URL)
    (title : option string) (self : ScrapeMapper) :
  url_bool url = true ->
  truthy (host url) = true ->
  first_match (the (host url)) = None ->
  fst (fst (map_url w (Some url) title self)) = Ok tt
  /\ calls (trace_of (map_url w (Some url) title self)) = []
  /\ filter crawler_event (trace_of (map_url w (Some url) title self)) = []
  /\ tree_calls (trace_of (map_url w (Some url) title self)) = []
  /\ (forall h,
        crawler_of h (state_of (map_url w (Some url) title self)) =
        crawler_of h self)
  /\ config (state_of (map_url w (Some url) title self)) = config self.
Proof.
  intros Hb Hh Hm.
  rewrite (map_url_hosted w url title self Hb Hh), Hm.
  unfold no_key_matched, jdownloader_setup, try_except, external, bind, get,
    put, emit, raise, ret, state_of, trace_of, tree_calls, config.
  run_code; repeat split; intros h; destruct h; reflexivity.
Qed.

Lemma unmatched_link_stays_away_witness :
  fst (fst (map_url sample.no_hand_off (Some sample.unknown_url) None
              sample.with_sink)) = Ok tt
  /\ calls (trace_of (map_url sample.no_hand_off (Some sample.unknown_url)
                        None sample.with_sink)) = []
  /\ filter crawler_event
       (trace_of (map_url sample.no_hand_off (Some sample.unknown_url) None
                    sample.with_sink)) = []
  /\ tree_calls (trace_of (map_url sample.no_hand_off
                             (Some sample.unknown_url) None
                             sample.with_sink)) = []
  /\ (forall h,
        crawler_of h (state_of (map_url sample.no_hand_off
                                  (Some sample.unknown_url) None
                                  sample.with_sink)) =
        crawler_of h sample.with_sink)
  /\ config (state_of (map_url sample.no_hand_off (Some sample.unknown_url)
                         None sample.with_sink)) = config sample.with_sink.
Proof.
  apply (unmatched_link_stays_away_from_crawlers sample.no_hand_off
           sample.unknown_url None sample.with_sink); reflexivity.
Defined.

(** X2: for a link whose host matches no key, [add_links] is called, once
    and with [autostart] off, exactly when the sink is enabled, the host
    is not on the blacklist and an agent is at hand; the link is appended
    to the unsupported-links file exactly when the sink is disabled.  So a
    link is never both handed over and recorded, and with the sink enabled
    a blacklisted link is neither. *)
Theorem unmatched_link_is_forwarded_or_recorded (w : Replies) (url : URL)
    (title : option string) (self : ScrapeMapper) :
  url_bool url = true ->
  truthy (host url) = true ->
  first_match (the (host url)) = None ->
  forwarded (trace_of (map_url w (Some url) title self)) =
    (if jdownloader_enable self && negb (blacklisted (the (host url)))
        && agent_at_hand w self
     then [str url] else [])
  /\ appended (trace_of (map_url w (Some url) title self)) =
     (if jdownloader_enable self then []
      else [(str url ++ newline)%string])
  /\ Forall (fun e => match e with
                      | add_links _ autostart _ => autostart = false
                      | _ => True
                      end)
       (trace_of (map_url w (Some url) title self)).
Proof.
  intros Hb Hh Hm.
  rewrite (map_url_hosted w url title self Hb Hh), Hm.
  unfold blacklisted, agent_at_hand, setup_fails.
  unfold no_key_matched, jdownloader_setup, try_except, external, bind, get,
    put, emit, raise, ret, state_of, trace_of.
  run_code; repeat split; repeat constructor; congruence.
Qed.

Lemma unmatched_link_is_forwarded_witness :
  forwarded (trace_of (map_url sample.all_fine (Some sample.unknown_url) None
                         sample.with_sink)) = [str sample.unknown_url]
  /\ appended (trace_of (map_url sample.all_fine (Some sample.unknown_url)
                           None sample.with_sink)) = []
  /\ Forall (fun e => match e with
                      | add_links _ autostart _ => autostart = false
                      | _ => True
                      end)
       (trace_of (map_url sample.all_fine (Some sample.unknown_url) None
                    sample.with_sink)).
Proof.
  apply (unmatched_link_is_forwarded_or_recorded sample.all_fine
           sample.unknown_url None sample.with_sink); reflexivity.
Defined.

(** ** What a handler does around its fetch *)

Lemma hosted_has_host (url : URL) :
  truthy (host url) = true -> host url = Some (the (host url)).
Proof. destruct (host url); [reflexivity | discriminate]. Qed.

(** The dispatch of a link with a host whose first matching key is not
    skipped is the call of the handler of that key. *)
Lemma map_url_invokes w url title self key h :
  url_bool url = true ->
  truthy (host url) = true ->
  first_match (the (host url)) = Some (key, h) ->
  list_in key (sites (skip_data self)) = false ->
  map_url w (Some url) title self =
  (fst (fst (method w (dispatch_all map_url (reentrant w)) h url title self)),
   state_of (method w (dispatch_all map_url (reentrant w)) h url title self),
   call h url title
   :: trace_of (method w (dispatch_all map_url (reentrant w)) h url title
                  self)).
Proof.
  intros Hb Hh Hm Hs.
  rewrite (map_url_hosted w url title self Hb Hh), Hm, Hs. cbn [negb].
  unfold invoke. apply bind_emit.
Qed.


Lemma method_tree_calls w h url title self hst :
  host url = Some hst ->
  tree_calls (trace_of (method w (ret tt) h url title self)) =
  if crawler_at_hand h w self then merged h w url title else [].
Proof.
  intros Hhost. unfold crawler_at_hand, merged, tree_calls, trace_of.
  destruct h; unfold_handlers; rewrite ?Hhost; run_code;
    first [reflexivity | congruence].
Qed.

(** X5: what one dispatch adds to the content tree.  With a crawler at
    hand and no inner dispatch, an album handler merges the object its
    fetch returned, after giving it the title when the title is not empty;
    [gfycat] and [redgifs] add one file under "<title>/gifs", or "gifs"
    without a title, and nothing when the fetch found no file; a forum
    handler merges the sub-tree its fetch returned and ignores the title.
    A fetch that raises adds nothing. *)
Theorem dispatch_merges_the_fetch_result (w : Replies) (url : URL)
    (title : option string) (self : ScrapeMapper) (key : string)
    (h : handler.t) :
  url_bool url = true ->
  truthy (host url) = true ->
  first_match (the (host url)) = Some (key, h) ->
  list_in key (sites (skip_data self)) = false ->
  reentrant w = [] ->
  tree_calls (trace_of (map_url w (Some url) title self)) =
  if crawler_at_hand h w self then merged h w url title else [].
Proof.
  intros Hb Hh Hm Hs Hre.
  rewrite (map_url_invokes w url title self key h Hb Hh Hm Hs), Hre.
  unfold trace_of at 1. cbn [snd tree_calls filter tree_event].
  apply (method_tree_calls w h url title self _ (hosted_has_host url Hh)).
Qed.

Lemma dispatch_merges_witness :
  tree_calls (trace_of (map_url more.gif_found (Some more.gfycat_url)
                          (Some "album") sample.plain)) =
  [add_to_album "gfycat.com" "album/gifs" more.gif more.gfycat_url].
Proof.
  apply (dispatch_merges_the_fetch_result more.gif_found more.gfycat_url
           (Some "album") sample.plain "gfycat.com" handler.gfycat);
    reflexivity.
Defined.

Lemma method_held_at_fetch w during_fetch h url title self hst :
  host url = Some hst ->
  crawler_at_hand h w self = true ->
  held_at_fetch [] (trace_of (method w during_fetch h url title self)) =
  Some (limiters_of h hst self).
Proof.
  intros Hhost. unfold crawler_at_hand, limiters_of, trace_of.
  destruct h; unfold_handlers; rewrite ?Hhost; run_code;
    intros H; first [discriminate H | reflexivity | congruence].
Qed.

(** X6: the limiter a dispatch holds when it calls [fetch].  [Bunkr]
    fetches under the bunkr rate limiter, [cyberfile] under the semaphore
    of one, the three forum handlers under the forum semaphore, [ShareX]
    under the jpg.church rate limiter only when the host contains
    "jpg.church" and the rate limit of the client exceeds 19; every other
    handler fetches with no limiter held. *)
Theorem fetch_runs_under_the_limiter_of_its_handler (w : Replies) (url : URL)
    (title : option string) (self : ScrapeMapper) (key : string)
    (h : handler.t) :
  url_bool url = true ->
  truthy (host url) = true ->
  first_match (the (host url)) = Some (key, h) ->
  list_in key (sites (skip_data self)) = false ->
  crawler_at_hand h w self = true ->
  held_at_fetch [] (trace_of (map_url w (Some url) title self)) =
  Some (limiters_of h (the (host url)) self).
Proof.
  intros Hb Hh Hm Hs Hc.
  rewrite (map_url_invokes w url title self key h Hb Hh Hm Hs).
  unfold trace_of at 1. cbn [snd held_at_fetch].
  apply method_held_at_fetch; [apply hosted_has_host, Hh | exact Hc].
Qed.

Lemma fetch_runs_under_the_limiter_witness :
  held_at_fetch []
    (trace_of (map_url sample.all_fine (Some more.jpg_church_url) None
                 sample.plain)) = Some [jpgchurch_limiter].
Proof.
  apply (fetch_runs_under_the_limiter_of_its_handler sample.all_fine
           more.jpg_church_url None sample.plain "jpg.church"
           handler.ShareX); reflexivity.
Defined.

(** ** What no run does to the router *)

Lemma run_respects_effect (R : effect) links :
  (forall s, R s s []) ->
  (forall s1 s2 s3 t1 t2, R s1 s2 t1 -> R s2 s3 t2 -> R s1 s3 (t1 ++ t2)) ->
  (forall e s, plain_event e = true -> R s s [e]) ->
  (forall w h, respects R (construct_if_missing w h)) ->
  (forall w, respects R (gofile_crawler_started w)) ->
  (forall h c url s, crawler_of h s = Some c -> R s s [fetch h c url]) ->
  (forall w url host, respects R (no_key_matched w url host)) ->
  respects R (run links).
Proof. intros. apply run_respects; assumption. Qed.

Lemma no_key_matched_keeps_slots w url host self h :
  crawler_of h (state_of (no_key_matched w url host self)) = crawler_of h self.
Proof.
  unfold no_key_matched, jdownloader_setup, try_except, external, bind, get,
    put, emit, raise, ret, state_of, trace_of.
  run_code; destruct h; reflexivity.
Qed.

Lemma In_app_log (msg : string) t1 t2 :
  In (log msg) t1 \/ In (log msg) t2 -> In (log msg) (t1 ++ t2).
Proof. intros H. apply in_or_app, H. Qed.

Lemma keeps_config_trans s1 s2 s3 t1 t2 :
  keeps_config s1 s2 t1 -> keeps_config s2 s3 t2 ->
  keeps_config s1 s3 (t1 ++ t2).
Proof.
  intros [C1 E1] [C2 E2]. split; [congruence|].
  destruct E1 as [E1 | (A1 & B1 & L1)], E2 as [E2 | (A2 & B2 & L2)].
  - left. congruence.
  - right. repeat split; try congruence. apply In_app_log. auto.
  - right. repeat split; try congruence. apply In_app_log. auto.
  - congruence.
Qed.

Lemma run_keeps_config links : respects keeps_config (run links).
Proof.
  apply run_respects_effect.
  - intros s. split; auto.
  - apply keeps_config_trans.
  - intros e s _. split; auto.
  - intros w h s.
    unfold construct_if_missing, external, bind, get, put, emit, raise, ret,
      state_of, trace_of.
    run_code; split; auto.
  - intros w s.
    unfold gofile_crawler_started, try_except, external, bind, get, put, emit,
      raise, ret, state_of, trace_of.
    run_code; split; auto.
  - intros h c url s _. split; auto.
  - intros w url host s.
    unfold keeps_config, config, no_key_matched, jdownloader_setup,
      try_except, external, bind, get, put, emit, raise, ret, state_of,
      trace_of.
    run_code; (split; [reflexivity|]);
      first [ solve [left; first [reflexivity | congruence]]
            | solve [right; repeat split; simpl; auto 10] ].
Qed.

(** X7: no run changes what the router was configured with (the skip
    set, the client, the JDownloader credentials and device name), and the
    only change to [jdownloader_enable] is from on to off, by a setup that
    failed and was logged as such. *)
Theorem run_keeps_the_configuration
    (links : list (option URL * option string * Replies))
    (self : ScrapeMapper) :
  config (state_of (run links self)) = config self
  /\ (jdownloader_enable (state_of (run links self)) = jdownloader_enable self
      \/ (jdownloader_enable self = true
          /\ jdownloader_enable (state_of (run links self)) = false
          /\ In (log "Failed jdownloader setup")
                (trace_of (run links self)))).
Proof. apply (run_keeps_config links self). Qed.

Lemma fills_by_construction_trans h s1 s2 s3 t1 t2 :
  fills_by_construction h s1 s2 t1 -> fills_by_construction h s2 s3 t2 ->
  fills_by_construction h s1 s3 (t1 ++ t2).
Proof.
  unfold fills_by_construction. rewrite constructions_app.
  intros [E1 | [N1 K1]] [E2 | [N2 K2]].
  - left. congruence.
  - right. split; [congruence | lia].
  - right. split; [assumption | lia].
  - right. split; [assumption | lia].
Qed.

Lemma fills_by_construction_set h h0 c s :
  crawler_of h0 s = None ->
  fills_by_construction h s (set_crawler h0 c s) [construct h0].
Proof.
  intros H0. unfold fills_by_construction.
  rewrite crawler_of_set_crawler. simpl.
  destruct (handler.eqb h0 h) eqn:E.
  - apply handler_eqb_eq in E. subst h0. rewrite handler_eqb_refl.
    right. split; [exact H0 | lia].
  - left. reflexivity.
Qed.

Lemma run_fills_by_construction h links :
  respects (fills_by_construction h) (run links).
Proof.
  apply run_respects_effect.
  - intros s. left. reflexivity.
  - apply fills_by_construction_trans.
  - intros e s _. left. reflexivity.
  - intros w h0 s. unfold construct_if_missing. rewrite bind_get.
    destruct (crawler_of h0 s) eqn:H0; [left; reflexivity|].
    unfold external, bind, emit, put, ret, raise, state_of, trace_of.
    destruct (constructed w); simpl;
      [apply fills_by_construction_set, H0 | left; reflexivity].
  - intros w s. unfold gofile_crawler_started. rewrite bind_get.
    destruct (gofile_crawler s) eqn:H0; [left; reflexivity|].
    unfold try_except, external, bind, emit, put, ret, raise, state_of,
      trace_of.
    destruct (constructed w); simpl; [|left; reflexivity].
    apply (fills_by_construction_set h handler.GoFile), H0.
  - intros h0 c url s _. left. reflexivity.
  - intros w url host s. left. apply no_key_matched_keeps_slots.
Qed.

(** X8: in no run is a crawler slot filled other than by a call of its own
    crawler class: after any run the slot of a handler holds what it held
    before, or it was empty and the class of that handler was called. *)
Theorem slot_is_filled_by_its_own_class_only (h : handler.t)
    (links : list (option URL * option string * Replies))
    (self : ScrapeMapper) :
  crawler_of h (state_of (run links self)) = crawler_of h self
  \/ (crawler_of h self = None
      /\ 1 <= constructions h (trace_of (run links self))).
Proof. apply (run_fills_by_construction h links self). Qed.

(** ** A sink that is set up *)

Lemma connects_app t1 t2 : connects (t1 ++ t2) = connects t1 + connects t2.
Proof.
  induction t1 as [|e t1 IH]; simpl; [reflexivity|].
  destruct e; simpl; rewrite ?IH; reflexivity.
Qed.

Lemma handed_to_app t1 t2 : handed_to (t1 ++ t2) = handed_to t1 ++ handed_to t2.
Proof.
  induction t1 as [|e t1 IH]; simpl; [reflexivity|].
  destruct e; simpl; rewrite ?IH; reflexivity.
Qed.

Lemma keeps_agent_trans a s1 s2 s3 t1 t2 :
  keeps_agent a s1 s2 t1 -> keeps_agent a s2 s3 t2 ->
  keeps_agent a s1 s3 (t1 ++ t2).
Proof.
  intros H1 H2 Hs. destruct (H1 Hs) as (Hs2 & Hc1 & Hf1).
  destruct (H2 Hs2) as (Hs3 & Hc2 & Hf2).
  rewrite connects_app, handed_to_app, Hc1, Hc2.
  repeat split; [exact Hs3 | apply Forall_app; auto].
Qed.

Lemma run_keeps_agent a links : respects (keeps_agent a) (run links).
Proof.
  apply run_respects_effect.
  - intros s Hs. simpl. auto.
  - apply keeps_agent_trans.
  - intros e s He Hs. destruct e; try discriminate He; simpl; auto.
  - intros w h s.
    unfold keeps_agent, construct_if_missing, external, bind, get, put, emit,
      raise, ret, state_of, trace_of.
    run_code; auto.
  - intros w s.
    unfold keeps_agent, gofile_crawler_started, try_except, external, bind,
      get, put, emit, raise, ret, state_of, trace_of.
    run_code; auto.
  - intros h c url s _ Hs. simpl. auto.
  - intros w url host s.
    unfold keeps_agent, no_key_matched, jdownloader_setup, try_except,
      external, bind, get, put, emit, raise, ret, state_of, trace_of.
    run_code; intros Hs; try discriminate Hs; try (injection Hs as ->);
      repeat split; first [congruence | repeat constructor; congruence].
Qed.

(** X9: the JDownloader agent is set up at most once.  When the first
    unmatched link finds the sink enabled and no agent, and the setup goes
    through, the dispatch connects with the credentials of the router,
    asks for its device and keeps the agent; from then on, in any run, the
    agent is kept, no connection is made again, and every hand-off goes to
    that agent. *)
Theorem agent_is_connected_once (w : Replies) (url : URL)
    (title : option string) (self : ScrapeMapper)
    (links : list (option URL * option string * Replies)) (a : Agent) :
  url_bool url = true ->
  truthy (host url) = true ->
  first_match (the (host url)) = None ->
  jdownloader_enable self = true ->
  jdownloader_agent self = None ->
  setup_fails w self = false ->
  device_found w = Some a ->
  let first := map_url w (Some url) title self in
  let later := run links (state_of first) in
  firstn 2 (trace_of first) =
    [ connect (the (username (jdownloader_auth self)))
              (the (password (jdownloader_auth self)));
      get_device (the (jdownloader_device self)) ]
  /\ connects (trace_of first) = 2
  /\ jdownloader_agent (state_of first) = Some a
  /\ jdownloader_enable (state_of first) = true
  /\ jdownloader_agent (state_of later) = Some a
  /\ connects (trace_of later) = 0
  /\ Forall (eq a) (handed_to (trace_of first ++ trace_of later)).
Proof.
  intros Hb Hh Hm He Ha Hf Hd first later.
  assert (Hfirst :
    firstn 2 (trace_of first) =
      [ connect (the (username (jdownloader_auth self)))
                (the (password (jdownloader_auth self)));
        get_device (the (jdownloader_device self)) ]
    /\ connects (trace_of first) = 2
    /\ jdownloader_agent (state_of first) = Some a
    /\ jdownloader_enable (state_of first) = true
    /\ Forall (eq a) (handed_to (trace_of first))).
  { subst first.
    rewrite (map_url_hosted w url title self Hb Hh), Hm.
    revert Hf.
    unfold setup_fails, no_key_matched, jdownloader_setup, try_except,
      external, bind, get, put, emit, raise, ret, state_of, trace_of.
    rewrite He, Ha, Hd.
    run_code; intros Hf; try discriminate Hf; try discriminate Ha;
      repeat split; try assumption; repeat constructor; congruence. }
  destruct Hfirst as (F1 & F2 & F3 & F4 & F5).
  destruct (run_keeps_agent a links (state_of first) F3) as (L1 & L2 & L3).
  fold later in L1, L2, L3.
  repeat split; try assumption.
  rewrite handed_to_app. apply Forall_app. auto.
Qed.

Lemma agent_is_connected_once_witness :
  let first := map_url sample.all_fine (Some sample.unknown_url) None
                 sample.with_sink in
  let later := run [ (Some sample.simpcity_url, None, sample.thread);
                     (Some sample.unknown_url, Some "t", sample.no_hand_off) ]
                   (state_of first) in
  firstn 2 (trace_of first) = [connect "me" "secret"; get_device "laptop"]
  /\ connects (trace_of first) = 2
  /\ jdownloader_agent (state_of first) = Some 3
  /\ jdownloader_enable (state_of first) = true
  /\ jdownloader_agent (state_of later) = Some 3
  /\ connects (trace_of later) = 0
  /\ Forall (eq 3) (handed_to (trace_of first ++ trace_of later)).
Proof.
  apply (agent_is_connected_once sample.all_fine sample.unknown_url None
           sample.with_sink
           [ (Some sample.simpcity_url, None, sample.thread);
             (Some sample.unknown_url, Some "t", sample.no_hand_off) ] 3);
    reflexivity.
Defined.

(** X18: [jdownloader_setup] never raises and tries things in order.
    With a credential or the device name missing or empty it makes no
    call at all; otherwise it connects, and asks for the device only when
    the connection was made.  It stores the agent when all of this went
    through and otherwise turns the sink off, changing nothing else. *)
Theorem setup_tries_in_order (w : Replies) (self : ScrapeMapper) :
  fst (fst (jdownloader_setup w self)) = Ok tt
  /\ connects (trace_of (jdownloader_setup w self)) =
     (if negb (truthy (username (jdownloader_auth self)))
         || negb (truthy (password (jdownloader_auth self)))
         || negb (truthy (jdownloader_device self))
      then 0
      else if connected w then 2 else 1)
  /\ state_of (jdownloader_setup w self) =
     (if setup_fails w self then set_jdownloader_enable false self
      else match device_found w with
           | Some agent => set_jdownloader_agent agent self
           | None => self
           end).
Proof.
  unfold setup_fails, jdownloader_setup, try_except, external, bind, get,
    put, emit, raise, ret, state_of, trace_of.
  run_code; repeat split.
Qed.

(** ** The key table *)

Lemma str_in_tail c sub s : str_in (String c sub) s = true -> str_in sub s = true.
Proof.
  induction s as [|a s IH]; [discriminate|].
  cbn [str_in]. destruct (String.prefix (String c sub) (String a s)) eqn:Hp.
  - intros _. cbn [String.prefix] in Hp.
    destruct (ascii_dec c a) as [_|_]; [|discriminate].
    assert (Hs : str_in sub s = true).
    { destruct s; cbn [str_in]; rewrite Hp; reflexivity. }
    destruct (String.prefix sub (String a s)); [reflexivity | exact Hs].
  - intros H. apply IH in H.
    destruct (String.prefix sub (String a s)); [reflexivity | exact H].
Qed.

(** X11: the order of the table settles the overlap of its keys.  Every
    key, taken as a host, reaches its own handler: no key is shadowed by
    an earlier one.  A host that contains "xbunkr" also contains "bunkr",
    and, as "xbunkr" comes first, such a host is never given to [Bunkr]:
    unless an anonfiles or bayfiles key occurs in it too, it goes to
    [XBunkr]. *)
Theorem table_order_settles_overlaps (host : string) :
  Forall (fun kv => first_match (fst kv) = Some kv) mapping
  /\ (str_in "xbunkr" host = true -> str_in "bunkr" host = true)
  /\ (str_in "xbunkr" host = true ->
      forall key, first_match host <> Some (key, handler.Bunkr))
  /\ (str_in "xbunkr" host = true ->
      str_in "anonfiles.com" host = false ->
      str_in "bayfiles" host = false ->
      first_match host = Some ("xbunkr", handler.XBunkr)).
Proof.
  split; [vm_compute; repeat constructor|].
  split; [apply str_in_tail|].
  split.
  - intros Hx key. unfold first_match, mapping. cbn [find fst].
    destruct (str_in "anonfiles.com" host); [discriminate|].
    destruct (str_in "bayfiles" host); [discriminate|].
    rewrite Hx. discriminate.
  - intros Hx Ha Hb. unfold first_match, mapping. cbn [find fst].
    rewrite Ha, Hb, Hx. reflexivity.
Qed.

Lemma table_order_witness :
  first_match (the (host more.xbunkr_url)) = Some ("xbunkr", handler.XBunkr).
Proof.
  apply (table_order_settles_overlaps (the (host more.xbunkr_url)));
    reflexivity.
Defined.

(** * Further properties of a run *)

Lemma scraped_app t1 t2 : scraped (t1 ++ t2) = scraped t1 ++ scraped t2.
Proof.
  induction t1 as [|e t1 IH]; simpl; [reflexivity|].
  destruct e; simpl; rewrite ?IH; reflexivity.
Qed.

Lemma credentials_app t1 t2 :
  credentials (t1 ++ t2) = credentials t1 ++ credentials t2.
Proof.
  induction t1 as [|e t1 IH]; simpl; [reflexivity|].
  destruct e; simpl; rewrite ?IH; reflexivity.
Qed.

Lemma downloads_app t1 t2 : downloads (t1 ++ t2) = downloads t1 ++ downloads t2.
Proof.
  induction t1 as [|e t1 IH]; simpl; [reflexivity|].
  destruct e; simpl; rewrite ?IH; reflexivity.
Qed.

Lemma workers_app t1 t2 : workers (t1 ++ t2) = workers t1 ++ workers t2.
Proof.
  induction t1 as [|e t1 IH]; simpl; [reflexivity|].
  destruct e; simpl; rewrite ?IH; reflexivity.
Qed.

Lemma touched_app t1 t2 : touched (t1 ++ t2) = touched t1 ++ touched t2.
Proof.
  induction t1 as [|e t1 IH]; simpl; [reflexivity|].
  destruct e; simpl; rewrite ?IH; reflexivity.
Qed.

Lemma logged_append t1 t2 : logged (t1 ++ t2) = logged t1 ++ logged t2.
Proof.
  induction t1 as [|e t1 IH]; simpl; [reflexivity|].
  destruct e; simpl; rewrite ?IH; reflexivity.
Qed.

Lemma downloads_of_loop timeout ds :
  downloads (map (fun d => main.download_content d timeout) ds) =
  map (fun d => (d, timeout)) ds.
Proof. induction ds as [|d ds IH]; simpl; [|rewrite IH]; reflexivity. Qed.

Lemma loop_only_downloads timeout ds :
  scraped (map (fun d => main.download_content d timeout) ds) = []
  /\ credentials (map (fun d => main.download_content d timeout) ds) = []
  /\ workers (map (fun d => main.download_content d timeout) ds) = []
  /\ touched (map (fun d => main.download_content d timeout) ds) = []
  /\ logged (map (fun d => main.download_content d timeout) ds) = [].
Proof. induction ds as [|d ds IH]; simpl; auto. Qed.

(** Splits a run of [download_all] on everything its control flow
    inspects. *)
Ltac run_phases URL_of args w :=
  unfold main.download_all, main.after_scrape, links_of;
  destruct (main.is_file w), (main.is_empty w),
    (main.output_last_forum_post args), (main.last_post_exists w),
    (filter url_bool (map URL_of (main.links args) ++ main.regex_links w)),
    (main.partial_downloads w);
  cbn [negb andb fst snd].

Ltac read_trace timeout w :=
  destruct (loop_only_downloads timeout (main.downloaders w))
    as (Ls & Lc & Lw & Lt & Ll);
  repeat (rewrite ?scraped_app, ?credentials_app, ?downloads_app,
            ?workers_app, ?touched_app, ?logged_append,
            ?downloads_of_loop, ?Ls, ?Lc, ?Lw, ?Lt, ?Ll;
          cbn [scraped credentials downloads workers touched logged app]).

(** The outcome of [download_all] and the calls it makes, phase by phase. *)
Lemma download_all_by_phase VERSION repr URL_of sibling args w :
  let run := main.download_all VERSION repr URL_of sibling args w in
  fst run =
    (if negb (main.is_file w) then main.exit 1
     else if main.is_empty w then main.exit 0 else main.returned)
  /\ touched (snd run) =
     (if negb (main.is_file w) then [main.input_file args]
      else if main.output_last_forum_post args && main.last_post_exists w
           then [sibling (main.input_file args) "URLs_last_post.txt"]
           else [])
  /\ scraped (snd run) =
     (if main.is_file w then [links_of URL_of args w] else [])
  /\ workers (snd run) =
     (if main.is_file w && negb (main.is_empty w)
      then [if (main.threads args =? 0)%Z then main.cpu_count w
            else main.threads args]
      else [])
  /\ downloads (snd run) =
     (if main.is_file w && negb (main.is_empty w)
      then map (fun d => (d, main.connection_timeout args))
               (main.downloaders w)
      else []).
Proof.
  intros run. subst run.
  run_phases URL_of args w;
    read_trace (main.connection_timeout args) w;
    rewrite ?app_nil_r; repeat split.
Qed.



(** X14: the links of a run.  [scrape] receives the links of the command
    line followed by those found in the input file, in their order, with
    the falsy ones dropped and nothing else changed.  When none is left
    the run says so ("No links found, check the URL.txt ...") and goes on:
    [scrape] is still called, with the empty list. *)
Theorem run_scrapes_the_truthy_links (VERSION : string)
    (repr : main.value -> string) (URL_of : string -> URL)
    (sibling : string -> string -> string) (args : main.Namespace)
    (w : main.Replies) :
  main.is_file w = true ->
  let run := main.download_all VERSION repr URL_of sibling args w in
  scraped (snd run) =
    [ filter url_bool (map URL_of (main.links args))
      ++ filter url_bool (main.regex_links w) ]
  /\ Forall (fun links => Forall (fun u => url_bool u = true) links)
            (scraped (snd run))
  /\ (In main.No_links_found_check (logged (snd run)) <->
      links_of URL_of args w = []).
Proof.
  intros Hf run.
  destruct (download_all_by_phase VERSION repr URL_of sibling args w)
    as (_ & _ & Hs & _).
  fold run in Hs. rewrite Hf in Hs. rewrite Hs.
  unfold links_of. rewrite filter_app.
  split; [reflexivity|]. split.
  - repeat constructor. rewrite <- filter_app.
    apply Forall_forall. intros u Hu. apply filter_In in Hu. apply Hu.
  - subst run. rewrite <- filter_app. revert Hf.
    run_phases URL_of args w; intros Hf; try discriminate Hf;
      read_trace (main.connection_timeout args) w;
      (split; [intros Hin | intros Heq]); try reflexivity; try discriminate;
      simpl in *; intuition discriminate.
Qed.

Lemma run_scrapes_the_truthy_links_witness :
  let run := main.download_all "4.2.0" sample.repr sample.URL_of
               sample.sibling sample.args more.scraped_something in
  scraped (snd run) =
    [ filter url_bool (map sample.URL_of (main.links sample.args))
      ++ filter url_bool (main.regex_links more.scraped_something) ]
  /\ Forall (fun links => Forall (fun u => url_bool u = true) links)
            (scraped (snd run))
  /\ (In main.No_links_found_check (logged (snd run)) <->
      links_of sample.URL_of sample.args more.scraped_something = []).
Proof.
  apply (run_scrapes_the_truthy_links "4.2.0" sample.repr sample.URL_of
           sample.sibling sample.args more.scraped_something).
  reflexivity.
Defined.

(** ** The redacted copy of the arguments *)

Lemma getitem_setitem_other d k k' v :
  k <> k' -> main.getitem (main.setitem d k' v) k = main.getitem d k.
Proof.
  intros Hne. induction d as [|[k0 v0] d IH]; simpl.
  - destruct (String.eqb k' k) eqn:E; [|reflexivity].
    apply String.eqb_eq in E. congruence.
  - destruct (String.eqb k0 k') eqn:E0; simpl.
    + apply String.eqb_eq in E0. subst k0.
      destruct (String.eqb k' k) eqn:E; [|reflexivity].
      apply String.eqb_eq in E. congruence.
    + destruct (String.eqb k0 k); [reflexivity | exact IH].
Qed.

Lemma getitem_setitem_same d k v :
  main.getitem (main.setitem d k v) k = Some v.
Proof.
  induction d as [|[k0 v0] d IH]; simpl.
  - rewrite String.eqb_refl. reflexivity.
  - destruct (String.eqb k0 k) eqn:E; simpl; rewrite E; [reflexivity | exact IH].
Qed.

(** X15: the redaction touches nothing but the log.  The dict that is
    logged has the keys of the arguments in their order, and under every
    key other than the four passwords the value that was supplied; and the
    credentials handed to [scrape] are the passwords as supplied, not the
    redacted ones. *)
Theorem redaction_changes_the_four_passwords_only (VERSION : string)
    (repr : main.value -> string) (URL_of : string -> URL)
    (sibling : string -> string -> string) (args : main.Namespace)
    (w : main.Replies) :
  map fst (main.print_args args) = map fst (main.vars args)
  /\ (forall k, password_key k = false ->
        main.getitem (main.print_args args) k =
        main.getitem (main.vars args) k)
  /\ credentials (snd (main.download_all VERSION repr URL_of sibling args w)) =
     (if main.is_file w then
        [ (Build_AuthData (main.xbunker_username args)
                          (main.xbunker_password args),
           Build_AuthData (main.socialmediagirls_username args)
                          (main.socialmediagirls_password args),
           Build_AuthData (main.simpcity_username args)
                          (main.simpcity_password args),
           Build_AuthData (main.jdownloader_username args)
                          (main.jdownloader_password args)) ]
      else []).
Proof.
  split; [vm_compute; reflexivity|]. split.
  - intros k Hk. unfold password_key, list_in in Hk. cbn [existsb] in Hk.
    repeat (apply orb_false_elim in Hk; destruct Hk as [? Hk]).
    unfold main.print_args.
    rewrite !getitem_setitem_other; try reflexivity;
      intros ->; cbn [String.eqb] in *;
      rewrite ?Ascii.eqb_refl in *; discriminate.
  - run_phases URL_of args w;
      read_trace (main.connection_timeout args) w; reflexivity.
Qed.

(** * Properties of the wrapper *)

(** X16: the wrapper made by [silence_event_loop_closed] calls the
    wrapped function once and changes one outcome only: a RuntimeError
    whose text is "Event loop is closed" becomes a return of [None].
    Every other outcome (a value, any other exception) is passed on as it
    is, the wrapper never raises that one error, and wrapping twice is the
    same as wrapping once. *)
Theorem wrapper_silences_one_error_only (World Self Args V : Type)
    (None_ : V) (func : entry.method World Self Args V) (self : Self)
    (args : Args) (world : World) :
  let silenced := entry.silence_event_loop_closed World Self Args V None_ in
  snd (silenced func self args world) = snd (func self args world)
  /\ (forall v, fst (func self args world) = entry.returns v ->
                fst (silenced func self args world) = entry.returns v)
  /\ (forall e, fst (func self args world) = entry.raises e ->
        fst (silenced func self args world) =
        if entry.is_RuntimeError e
           && String.eqb (entry.message e) "Event loop is closed"
        then entry.returns None_ else entry.raises e)
  /\ (forall e, fst (silenced func self args world) = entry.raises e ->
        entry.is_RuntimeError e
        && String.eqb (entry.message e) "Event loop is closed" = false)
  /\ silenced (silenced func) self args world = silenced func self args world.
Proof.
  intros silenced. subst silenced. unfold entry.silence_event_loop_closed.
  destruct (func self args world) as [[v|e] world']; cbn [fst snd].
  - repeat split; intros; congruence.
  - destruct (entry.is_RuntimeError e) eqn:Hr;
      destruct (String.eqb (entry.message e) "Event loop is closed") eqn:Hm;
      cbn [negb andb fst snd]; rewrite ?Hr, ?Hm; cbn [negb andb];
      repeat split; intros; try congruence;
      match goal with
      | H : entry.raises _ = entry.raises _ |- _ => injection H as <-
      end; rewrite ?Hr, ?Hm; reflexivity.
Qed.
